(** * Job store of work-flow-connect: a shallow embedding of
      [src/contexts/JobContext.tsx] and the properties of its operations.

    The provider component keeps the job list in React state and exposes
    CRUD and social operations over it.  The embedding keeps the shape of
    the source: arrays are lists, [Array.prototype.map], [filter], [find]
    and [includes] are the corresponding list functions, a JS number that
    the code only counts with is a [Z], the React state cells together with
    the collaborators they talk to (authentication, local storage, toast
    notifications) are one record that the operations pass along. *)

From Stdlib Require Import List String ZArith Bool Lia Permutation.
From Stdlib Require Import Decimal DecimalString.
Import ListNotations.
Local Open Scope string_scope.
Local Open Scope list_scope.
Local Open Scope Z_scope.

(** ** Data model (the exported types of the context) *)

Module Reply.
Record ReplyType : Type := mk {
    id : string;
    content : string;
    userId : string;
    userName : string;
    userPhoto : string;
    timestamp : Z
  }.
End Reply.

Module Comment.
Record CommentType : Type := mk {
    id : string;
    content : string;
    userId : string;
    userName : string;
    userPhoto : string;
    timestamp : Z;
    replies : list Reply.ReplyType
  }.

  (** [{ ...comment, replies: r }] *)
Definition with_replies (c : CommentType) (r : list Reply.ReplyType) : CommentType :=
    mk (id c) (content c) (userId c) (userName c) (userPhoto c) (timestamp c) r.
End Comment.

(** [status: 'open' | 'in-progress' | 'completed'] *)
Inductive JobStatus : Type := open | in_progress | completed.

Module Job.
Record JobType : Type := mk {
    id : string;
    title : string;
    description : string;
    budget : Z;
    category : string;
    skills : list string;
    userId : string;
    userName : string;
    userPhoto : option string;
    status : JobStatus;
    timestamp : Z;
    comments : list Comment.CommentType;
    likedBy : list string;
    likesCount : Z;
    savedBy : list string
  }.

  (** [{ ...job, comments: cs }] *)
Definition with_comments (j : JobType) (cs : list Comment.CommentType) : JobType :=
    mk (id j) (title j) (description j) (budget j) (category j) (skills j)
       (userId j) (userName j) (userPhoto j) (status j) (timestamp j)
       cs (likedBy j) (likesCount j) (savedBy j).

  (** [{ ...job, likedBy: l, likesCount: n }] *)
Definition with_likes (j : JobType) (l : list string) (n : Z) : JobType :=
    mk (id j) (title j) (description j) (budget j) (category j) (skills j)
       (userId j) (userName j) (userPhoto j) (status j) (timestamp j)
       (comments j) l n (savedBy j).

  (** [{ ...job, savedBy: s }] *)
Definition with_savedBy (j : JobType) (s : list string) : JobType :=
    mk (id j) (title j) (description j) (budget j) (category j) (skills j)
       (userId j) (userName j) (userPhoto j) (status j) (timestamp j)
       (comments j) (likedBy j) (likesCount j) s.
End Job.

(** [Partial<JobType>]: every key of a job may be present or absent. *)
Module Partial.
Record PartialJobType : Type := mk {
    id : option string;
    title : option string;
    description : option string;
    budget : option Z;
    category : option string;
    skills : option (list string);
    userId : option string;
    userName : option string;
    userPhoto : option (option string);
    status : option JobStatus;
    timestamp : option Z;
    comments : option (list Comment.CommentType);
    likedBy : option (list string);
    likesCount : option Z;
    savedBy : option (list string)
  }.

  (** The object literal [{}]. *)
Definition empty : PartialJobType :=
    mk None None None None None None None None None None None None None None None.

  (** The object literal [{ status: s }]. *)
Definition only_status (s : JobStatus) : PartialJobType :=
    mk None None None None None None None None None (Some s) None None None None None.
End Partial.

(** A key of the right operand of a spread wins when it is present. *)
Definition override {A : Type} (old : A) (new : option A) : A :=
  match new with Some v => v | None => old end.

(** [{ ...job, ...updates }] *)
Definition spread (job : Job.JobType) (updates : Partial.PartialJobType) : Job.JobType :=
  Job.mk
    (override (Job.id job) (Partial.id updates))
    (override (Job.title job) (Partial.title updates))
    (override (Job.description job) (Partial.description updates))
    (override (Job.budget job) (Partial.budget updates))
    (override (Job.category job) (Partial.category updates))
    (override (Job.skills job) (Partial.skills updates))
    (override (Job.userId job) (Partial.userId updates))
    (override (Job.userName job) (Partial.userName updates))
    (override (Job.userPhoto job) (Partial.userPhoto updates))
    (override (Job.status job) (Partial.status updates))
    (override (Job.timestamp job) (Partial.timestamp updates))
    (override (Job.comments job) (Partial.comments updates))
    (override (Job.likedBy job) (Partial.likedBy updates))
    (override (Job.likesCount job) (Partial.likesCount updates))
    (override (Job.savedBy job) (Partial.savedBy updates)).

(** The argument of [addJob]:
    [Omit<JobType, 'id' | 'timestamp' | 'comments' | 'likedBy' | 'savedBy' | 'likesCount'>]. *)
Module NewJob.
Record NewJobType : Type := mk {
    title : string;
    description : string;
    budget : Z;
    category : string;
    skills : list string;
    userId : string;
    userName : string;
    userPhoto : option string;
    status : JobStatus
  }.
End NewJob.

(** The acting user handed out by [useAuth]; the store reads [id], [name]
    and [photoURL] of it. *)
Module User.
Record UserType : Type := mk {
    id : string;
    name : string;
    photoURL : option string
  }.
End User.

(** A job record of the remote API: the typed fields plus optional
    [comments] and optional lists of liker and saver objects, of which
    only the [id] is projected. *)
Module Remote.
Record Liker : Type := mkLiker { liker_id : string }.

Record RawJob : Type := mk {
    base : NewJob.NewJobType;
    id : string;
    timestamp : Z;
    comments : option (list Comment.CommentType);
    likedBy : option (list Liker);
    savedBy : option (list Liker)
  }.

  (** What [fetch] and [response.json()] can come back with. *)
Inductive Response : Type :=
  | NetworkError                          (* fetch rejects *)
  | NotOk                                 (* response.ok is false *)
  | InvalidBody                           (* response.json() rejects *)
  | OkWithoutJobs                         (* data.jobs is falsy *)
  | OkJobs (jobs : list RawJob).          (* data.jobs *)

(** The responses that send [fetchJobs] into its [catch] branch. *)
Definition failed (r : Response) : bool :=
  match r with
  | NetworkError | NotOk | InvalidBody => true
  | OkWithoutJobs | OkJobs _ => false
  end.
End Remote.

(** ** Collaborators *)

(** The ['wfc_jobs'] slot of local storage.  The text that
    [JSON.stringify] wrote is kept as the list it was made from; text that
    [JSON.parse] rejects is [Corrupt]. *)
Inductive CacheEntry : Type :=
| Snapshot (js : list Job.JobType)
| Corrupt.

Inductive ToastVariant : Type := default | destructive.

Record Toast : Type := mkToast {
  variant : ToastVariant;
  toast_title : string;
  toast_description : string
}.

(** [Date.now()] may be read several times in one call; [clk k] is the
    k-th reading. *)
Definition Clock : Type := nat -> Z.

(** [n.toString()] for an integral number. *)
Definition toString (n : Z) : string := NilZero.string_of_int (Z.to_int n).

(** ** State of the provider *)

Record Store : Type := mkStore {
  jobs : list Job.JobType;              (* useState<JobType[]>([]) *)
  savedJobs : list Job.JobType;         (* useState<JobType[]>([]) *)
  isLoading : bool;                     (* useState(true) *)
  error : option string;                (* useState<string | null>(null) *)
  currentUser : option User.UserType;   (* useAuth() *)
  localStorage : option CacheEntry;     (* localStorage.getItem('wfc_jobs') *)
  toasts : list Toast                   (* notifications emitted, newest last *)
}.

Definition setJobsTo (js : list Job.JobType) (s : Store) : Store :=
  mkStore js (savedJobs s) (isLoading s) (error s) (currentUser s) (localStorage s) (toasts s).

Definition setSavedJobs (js : list Job.JobType) (s : Store) : Store :=
  mkStore (jobs s) js (isLoading s) (error s) (currentUser s) (localStorage s) (toasts s).

Definition setIsLoading (b : bool) (s : Store) : Store :=
  mkStore (jobs s) (savedJobs s) b (error s) (currentUser s) (localStorage s) (toasts s).

Definition setError (e : string) (s : Store) : Store :=
  mkStore (jobs s) (savedJobs s) (isLoading s) (Some e) (currentUser s) (localStorage s) (toasts s).

Definition setCurrentUser (u : option User.UserType) (s : Store) : Store :=
  mkStore (jobs s) (savedJobs s) (isLoading s) (error s) u (localStorage s) (toasts s).

Definition setItem (e : CacheEntry) (s : Store) : Store :=
  mkStore (jobs s) (savedJobs s) (isLoading s) (error s) (currentUser s) (Some e) (toasts s).

Definition toast (t : Toast) (s : Store) : Store :=
  mkStore (jobs s) (savedJobs s) (isLoading s) (error s) (currentUser s) (localStorage s)
          (toasts s ++ [t]).

(** How a call ends: it returns a value or an exception reaches the caller. *)
Inductive Outcome (A : Type) : Type :=
| Returned (a : A)
| Thrown.
Arguments Returned {A} a.
Arguments Thrown {A}.

(** ** Array helpers *)

(** [xs.includes(x)] on an array of strings. *)
Definition includes (xs : list string) (x : string) : bool :=
  existsb (fun y => String.eqb y x) xs.

(** [xs.filter(id => id !== x)] *)
Definition without (xs : list string) (x : string) : list string :=
  filter (fun id => negb (String.eqb id x)) xs.

(** ** Effects that follow a render

    [useEffect(() => { updateSavedJobs(); }, [jobs, currentUser, updateSavedJobs])]
    and the effect that mirrors a non-empty job list into local storage
    run after every render in which [jobs] is a new array.  The store is
    observed once these effects have run. *)

Definition updateSavedJobs (s : Store) : Store :=
  match currentUser s with
  | Some u =>
      let userSavedJobs :=
        filter (fun job => includes (Job.savedBy job) (User.id u)) (jobs s) in
      setSavedJobs userSavedJobs s
  | None => setSavedJobs [] s
  end.

Definition persistJobs (s : Store) : Store :=
  if (0 <? Z.of_nat (List.length (jobs s))) then setItem (Snapshot (jobs s)) s else s.

Definition afterJobsChange (s : Store) : Store :=
  persistJobs (updateSavedJobs s).

(** [setJobs(prevJobs => f(prevJobs))] *)
Definition setJobs (f : list Job.JobType -> list Job.JobType) (s : Store) : Store :=
  setJobsTo (f (jobs s)) s.

(** ** Seed data *)

Definition getMockJobs (clk : Clock) : list Job.JobType :=
  [ Job.mk "1"
      "Desarrollo de aplicación web con React"
      "Necesito un desarrollador para crear una aplicación web completa utilizando React, Node.js y MongoDB. La aplicación debe tener funcionalidades de autenticación, gestión de usuarios y un panel de administración."
      2500
      "Desarrollo Web"
      ["React"; "Node.js"; "MongoDB"; "Express"]
      "user1"
      "Carlos Martínez"
      (Some "https://randomuser.me/api/portraits/men/1.jpg")
      open
      (clk 0%nat - 86400000 * 2)
      [ Comment.mk "c1"
          "Me interesa este proyecto. Tengo experiencia en proyectos similares."
          "user2"
          "Laura Gómez"
          "https://randomuser.me/api/portraits/women/2.jpg"
          (clk 1%nat - 43200000)
          [ Reply.mk "r1"
              "Gracias por tu interés, por favor envíame un mensaje para discutir los detalles."
              "user1"
              "Carlos Martínez"
              "https://randomuser.me/api/portraits/men/1.jpg"
              (clk 2%nat - 36000000) ] ]
      [] 0 [];
    Job.mk "2"
      "Diseño de logotipo para startup de tecnología"
      "Somos una startup en el sector de la tecnología y necesitamos un logotipo moderno y profesional que refleje nuestra identidad de marca. Queremos algo minimalista pero impactante."
      500
      "Diseño Gráfico"
      ["Illustrator"; "Photoshop"; "Diseño de Logos"; "Branding"]
      "user3"
      "Ana Rodríguez"
      (Some "https://randomuser.me/api/portraits/women/3.jpg")
      open
      (clk 3%nat - 86400000)
      [] [] 0 [];
    Job.mk "3"
      "Traducción de documentos técnicos inglés-español"
      "Necesito traducir manuales técnicos de ingeniería del inglés al español. Son aproximadamente 200 páginas con terminología especializada."
      800
      "Traducción"
      ["Inglés"; "Español"; "Traducción Técnica"]
      "user4"
      "Roberto Sánchez"
      (Some "https://randomuser.me/api/portraits/men/4.jpg")
      in_progress
      (clk 4%nat - 86400000 * 5)
      [] [] 0 [];
    Job.mk "4"
      "Desarrollo de aplicación móvil para Android e iOS"
      "Buscamos un desarrollador con experiencia en React Native para crear una aplicación móvil que funcione tanto en Android como en iOS. La aplicación debe tener funcionalidades de geolocalización y notificaciones push."
      3000
      "Desarrollo Móvil"
      ["React Native"; "Android"; "iOS"; "Firebase"]
      "user5"
      "Elena Torres"
      (Some "https://randomuser.me/api/portraits/women/5.jpg")
      open
      (clk 5%nat - 86400000 * 3)
      [] [] 0 [];
    Job.mk "5"
      "Edición y postproducción de video corporativo"
      "Tenemos material grabado para un video corporativo de 5 minutos y necesitamos un profesional para la edición y postproducción. Se requiere experiencia en After Effects para animaciones y efectos."
      1200
      "Video y Animación"
      ["Premiere Pro"; "After Effects"; "Edición de Video"; "Postproducción"]
      "user1"
      "Carlos Martínez"
      (Some "https://randomuser.me/api/portraits/men/1.jpg")
      completed
      (clk 6%nat - 86400000 * 10)
      [] [] 0 [] ].

(** ** Loading: remote API, then local storage, then seed data *)

(** The normalisation applied to each record of [data.jobs]. *)
Definition formatJob (job : Remote.RawJob) : Job.JobType :=
  let b := Remote.base job in
  Job.mk (Remote.id job)
    (NewJob.title b) (NewJob.description b) (NewJob.budget b) (NewJob.category b)
    (NewJob.skills b) (NewJob.userId b) (NewJob.userName b) (NewJob.userPhoto b)
    (NewJob.status b) (Remote.timestamp job)
    (* comments: job.comments || [] *)
    (match Remote.comments job with Some cs => cs | None => [] end)
    (* likedBy: job.likedBy?.map(user => user.id) || [] *)
    (match Remote.likedBy job with Some us => map Remote.liker_id us | None => [] end)
    (* likesCount: job.likedBy?.length || 0 *)
    (match Remote.likedBy job with Some us => Z.of_nat (List.length us) | None => 0 end)
    (* savedBy: job.savedBy?.map(user => user.id) || [] *)
    (match Remote.savedBy job with Some us => map Remote.liker_id us | None => [] end).

(** The [catch] branch of [fetchJobs]: local storage, else seed data. *)
Definition loadFallback (clk : Clock) (s : Store) : Store :=
  match localStorage s with
  | Some (Snapshot storedJobs) => afterJobsChange (setJobsTo storedJobs s)
  | Some Corrupt => setError "No se pudieron cargar los trabajos" s
  | None =>
      let mockJobs := getMockJobs clk in
      afterJobsChange (setItem (Snapshot mockJobs) (setJobsTo mockJobs s))
  end.

Definition fetchJobs (response : Remote.Response) (clk : Clock) (s : Store) : Store :=
  let s0 := setIsLoading true s in
  let s1 :=
    match response with
    | Remote.OkJobs raw => afterJobsChange (setJobsTo (map formatJob raw) s0)
    | Remote.OkWithoutJobs => s0
    | Remote.NotOk | Remote.NetworkError | Remote.InvalidBody => loadFallback clk s0
    end in
  setIsLoading false s1.

Definition refreshJobs := fetchJobs.

(** The provider before its first effects, and once it is mounted: the
    saved-jobs effect runs on the empty list, the persistence effect skips
    it, and [fetchJobs] settles with the given response. *)
Definition initial (user : option User.UserType) (cache : option CacheEntry) : Store :=
  mkStore [] [] true None user cache [].

Definition mount (user : option User.UserType) (cache : option CacheEntry)
    (response : Remote.Response) (clk : Clock) : Store :=
  fetchJobs response clk (updateSavedJobs (initial user cache)).

(** ** Queries *)

Definition findJob (jobId : string) (js : list Job.JobType) : option Job.JobType :=
  find (fun job => String.eqb (Job.id job) jobId) js.

(** [getJob] reads the job list and hands the store back as it got it. *)
Definition getJob (jobId : string) (s : Store) : option Job.JobType * Store :=
  (findJob jobId (jobs s), s).

Definition isJobSavedByCurrentUser (jobId : string) (s : Store) : bool :=
  match currentUser s with
  | None => false
  | Some u =>
      match findJob jobId (jobs s) with
      | Some job => includes (Job.savedBy job) (User.id u)
      | None => false
      end
  end.

Definition isJobLikedByCurrentUser (jobId : string) (s : Store) : bool :=
  match currentUser s with
  | None => false
  | Some u =>
      match findJob jobId (jobs s) with
      | Some job => includes (Job.likedBy job) (User.id u)
      | None => false
      end
  end.

Definition getLikesCount (jobId : string) (s : Store) : Z :=
  match findJob jobId (jobs s) with
  | Some job => Job.likesCount job
  | None => 0
  end.

(** ** Mutating operations

    Each operation returns the store as it is once the render it caused and
    the effects of that render are over, together with how the call ended.
    Toast texts are computed from the job list the call was created with,
    as the closures of the source do. *)

Definition addJob (newJob : NewJob.NewJobType) (clk : Clock) (s : Store)
    : Store * Outcome string :=
  let jobId := toString (clk 0%nat) in
  let job :=
    Job.mk jobId
      (NewJob.title newJob) (NewJob.description newJob) (NewJob.budget newJob)
      (NewJob.category newJob) (NewJob.skills newJob) (NewJob.userId newJob)
      (NewJob.userName newJob) (NewJob.userPhoto newJob) (NewJob.status newJob)
      (clk 1%nat) [] [] 0 [] in
  let s1 := setJobs (fun prevJobs => job :: prevJobs) s in
  let s2 := toast (mkToast default "Trabajo creado" "El trabajo se ha creado correctamente") s1 in
  (afterJobsChange s2, Returned jobId).

Definition updateJob (jobId : string) (updates : Partial.PartialJobType) (s : Store)
    : Store * Outcome unit :=
  let s1 :=
    setJobs (fun prevJobs =>
      map (fun job => if String.eqb (Job.id job) jobId then spread job updates else job)
          prevJobs) s in
  let s2 :=
    toast (mkToast default "Trabajo actualizado" "El trabajo se ha actualizado correctamente") s1 in
  (afterJobsChange s2, Returned tt).

Definition deleteJob (jobId : string) (s : Store) : Store * Outcome unit :=
  let s1 :=
    setJobs (fun prevJobs =>
      filter (fun job => negb (String.eqb (Job.id job) jobId)) prevJobs) s in
  let s2 :=
    toast (mkToast default "Trabajo eliminado" "El trabajo se ha eliminado correctamente") s1 in
  (afterJobsChange s2, Returned tt).

(** [user.photoURL || ''] *)
Definition photoOrEmpty (user : User.UserType) : string :=
  match User.photoURL user with Some p => p | None => "" end.

(** The [user] argument is typed [any]; [None] stands for a call without a
    user object, where reading [user.id] throws inside the [try]. *)
Definition addCommentToJob (jobId content : string) (user : option User.UserType)
    (clk : Clock) (s : Store) : Store * Outcome unit :=
  match user with
  | None => (setError "No se pudo añadir el comentario" s, Thrown)
  | Some u =>
      let commentId := toString (clk 0%nat) in
      let newComment :=
        Comment.mk commentId content (User.id u) (User.name u) (photoOrEmpty u)
                   (clk 1%nat) [] in
      let s1 :=
        setJobs (fun prevJobs =>
          map (fun job =>
                 if String.eqb (Job.id job) jobId
                 then Job.with_comments job (newComment :: Job.comments job)
                 else job)
              prevJobs) s in
      let s2 := toast (mkToast default "Comentario añadido" "Tu comentario ha sido publicado") s1 in
      (afterJobsChange s2, Returned tt)
  end.

Definition addReplyToComment (jobId commentId content : string)
    (user : option User.UserType) (clk : Clock) (s : Store) : Store * Outcome unit :=
  match user with
  | None => (setError "No se pudo añadir la respuesta" s, Thrown)
  | Some u =>
      let replyId := toString (clk 0%nat) in
      let newReply :=
        Reply.mk replyId content (User.id u) (User.name u) (photoOrEmpty u) (clk 1%nat) in
      let s1 :=
        setJobs (fun prevJobs =>
          map (fun job =>
                 if String.eqb (Job.id job) jobId
                 then Job.with_comments job
                        (map (fun comment =>
                                if String.eqb (Comment.id comment) commentId
                                then Comment.with_replies comment
                                       (Comment.replies comment ++ [newReply])
                                else comment)
                             (Job.comments job))
                 else job)
              prevJobs) s in
      let s2 := toast (mkToast default "Respuesta añadida" "Tu respuesta ha sido publicada") s1 in
      (afterJobsChange s2, Returned tt)
  end.

(** The function passed to [prevJobs.map] by [toggleJobLike]. *)
Definition likeToggled (uid jobId : string) (job : Job.JobType) : Job.JobType :=
  if String.eqb (Job.id job) jobId then
    let userLiked := includes (Job.likedBy job) uid in
    if userLiked
    then Job.with_likes job (without (Job.likedBy job) uid)
                        (Z.max 0 (Job.likesCount job - 1))
    else Job.with_likes job (Job.likedBy job ++ [uid]) (Job.likesCount job + 1)
  else job.

Definition toggleJobLike (jobId : string) (s : Store) : Store * Outcome unit :=
  match currentUser s with
  | None =>
      (toast (mkToast destructive "Error" "Debes iniciar sesión para dar like") s,
       Returned tt)
  | Some u =>
      let s1 := setJobs (map (likeToggled (User.id u) jobId)) s in
      let liked := isJobLikedByCurrentUser jobId s in
      let s2 :=
        toast (mkToast default
                 (if liked then "Like eliminado" else "Like añadido")
                 (if liked
                  then "Has quitado tu like de esta propuesta"
                  else "Has dado like a esta propuesta")) s1 in
      (afterJobsChange s2, Returned tt)
  end.

(** The function passed to [prevJobs.map] by [toggleSaveJob]. *)
Definition saveToggled (uid jobId : string) (job : Job.JobType) : Job.JobType :=
  if String.eqb (Job.id job) jobId then
    let isSaved := includes (Job.savedBy job) uid in
    if isSaved
    then Job.with_savedBy job (without (Job.savedBy job) uid)
    else Job.with_savedBy job (Job.savedBy job ++ [uid])
  else job.

(** [updateSavedJobs()] called from inside [toggleSaveJob] is the callback
    of the render the handler belongs to: it filters the job list [stale]
    of that render, not the one [setJobs] is about to produce. *)
Definition updateSavedJobsFrom (stale : list Job.JobType) (s : Store) : Store :=
  match currentUser s with
  | Some u =>
      setSavedJobs (filter (fun job => includes (Job.savedBy job) (User.id u)) stale) s
  | None => setSavedJobs [] s
  end.

Definition toggleSaveJob (jobId : string) (s : Store) : Store * Outcome unit :=
  match currentUser s with
  | None =>
      (toast (mkToast destructive "Error" "Debes iniciar sesión para guardar propuestas") s,
       Returned tt)
  | Some u =>
      let s1 := setJobs (map (saveToggled (User.id u) jobId)) s in
      let s2 := updateSavedJobsFrom (jobs s) s1 in
      let saved := isJobSavedByCurrentUser jobId s in
      let s3 :=
        toast (mkToast default
                 (if saved then "Propuesta eliminada" else "Propuesta guardada")
                 (if saved
                  then "Has eliminado esta propuesta de tus guardados"
                  else "Has guardado esta propuesta")) s2 in
      (afterJobsChange s3, Returned tt)
  end.

(** The authentication collaborator replaces the acting user: of the
    effects only the one that depends on [currentUser] runs. *)
Definition authChange (user : option User.UserType) (s : Store) : Store :=
  updateSavedJobs (setCurrentUser user s).

(** ** Histories of the store *)

Inductive Action : Type :=
| AddJob (newJob : NewJob.NewJobType) (clk : Clock)
| UpdateJob (jobId : string) (updates : Partial.PartialJobType)
| DeleteJob (jobId : string)
| AddCommentToJob (jobId content : string) (user : option User.UserType) (clk : Clock)
| AddReplyToComment (jobId commentId content : string) (user : option User.UserType)
    (clk : Clock)
| ToggleJobLike (jobId : string)
| ToggleSaveJob (jobId : string)
| RefreshJobs (response : Remote.Response) (clk : Clock)
| AuthChange (user : option User.UserType).

Definition step (a : Action) (s : Store) : Store :=
  match a with
  | AddJob newJob clk => fst (addJob newJob clk s)
  | UpdateJob jobId updates => fst (updateJob jobId updates s)
  | DeleteJob jobId => fst (deleteJob jobId s)
  | AddCommentToJob jobId content user clk => fst (addCommentToJob jobId content user clk s)
  | AddReplyToComment jobId commentId content user clk =>
      fst (addReplyToComment jobId commentId content user clk s)
  | ToggleJobLike jobId => fst (toggleJobLike jobId s)
  | ToggleSaveJob jobId => fst (toggleSaveJob jobId s)
  | RefreshJobs response clk => refreshJobs response clk s
  | AuthChange user => authChange user s
  end.

Definition run (actions : list Action) (s : Store) : Store :=
  fold_left (fun acc a => step a acc) actions s.

(** The stores the provider can be in: mounted, then any actions. *)
Inductive Reachable : Store -> Prop :=
| reach_mount user cache response clk :
    Reachable (mount user cache response clk)
| reach_step a s :
    Reachable s -> Reachable (step a s).



(** ** The invariant of the data model *)

(** [likesCount] is the size of [likedBy], and [likedBy] and [savedBy]
    hold each user id at most once. *)
Definition JobInvariant (job : Job.JobType) : Prop :=
  Job.likesCount job = Z.of_nat (List.length (Job.likedBy job))
  /\ NoDup (Job.likedBy job)
  /\ NoDup (Job.savedBy job).

(** The saved-jobs view as the specification words it. *)
Definition savedView (s : Store) : list Job.JobType :=
  match currentUser s with
  | Some u => filter (fun job => includes (Job.savedBy job) (User.id u)) (jobs s)
  | None => []
  end.

(** ** Vocabulary of the properties *)

(** Two [toggleJobLike] calls in a row on the same job id. *)
Definition toggleJobLikeTwice (jobId : string) (s : Store) : Store :=
  fst (toggleJobLike jobId (fst (toggleJobLike jobId s))).

(** The comment and the reply that [addCommentToJob] and
    [addReplyToComment] build from their arguments. *)
Definition newCommentOf (content : string) (u : User.UserType) (clk : Clock)
    : Comment.CommentType :=
  Comment.mk (toString (clk 0%nat)) content (User.id u) (User.name u) (photoOrEmpty u)
             (clk 1%nat) [].

Definition newReplyOf (content : string) (u : User.UserType) (clk : Clock)
    : Reply.ReplyType :=
  Reply.mk (toString (clk 0%nat)) content (User.id u) (User.name u) (photoOrEmpty u)
           (clk 1%nat).

(** Two jobs agree on every field but [status]. *)
Definition SameExceptStatus (a b : Job.JobType) : Prop :=
  Job.id a = Job.id b /\ Job.title a = Job.title b
  /\ Job.description a = Job.description b /\ Job.budget a = Job.budget b
  /\ Job.category a = Job.category b /\ Job.skills a = Job.skills b
  /\ Job.userId a = Job.userId b /\ Job.userName a = Job.userName b
  /\ Job.userPhoto a = Job.userPhoto b /\ Job.timestamp a = Job.timestamp b
  /\ Job.comments a = Job.comments b /\ Job.likedBy a = Job.likedBy b
  /\ Job.likesCount a = Job.likesCount b /\ Job.savedBy a = Job.savedBy b.

(** Two jobs agree on every field but [likedBy] and [likesCount]. *)
Definition SameExceptLikes (a b : Job.JobType) : Prop :=
  Job.id a = Job.id b /\ Job.title a = Job.title b
  /\ Job.description a = Job.description b /\ Job.budget a = Job.budget b
  /\ Job.category a = Job.category b /\ Job.skills a = Job.skills b
  /\ Job.userId a = Job.userId b /\ Job.userName a = Job.userName b
  /\ Job.userPhoto a = Job.userPhoto b /\ Job.status a = Job.status b
  /\ Job.timestamp a = Job.timestamp b /\ Job.comments a = Job.comments b
  /\ Job.savedBy a = Job.savedBy b.

(** Two jobs agree on every field but [savedBy]. *)
Definition SameExceptSavedBy (a b : Job.JobType) : Prop :=
  Job.id a = Job.id b /\ Job.title a = Job.title b
  /\ Job.description a = Job.description b /\ Job.budget a = Job.budget b
  /\ Job.category a = Job.category b /\ Job.skills a = Job.skills b
  /\ Job.userId a = Job.userId b /\ Job.userName a = Job.userName b
  /\ Job.userPhoto a = Job.userPhoto b /\ Job.status a = Job.status b
  /\ Job.timestamp a = Job.timestamp b /\ Job.comments a = Job.comments b
  /\ Job.likedBy a = Job.likedBy b /\ Job.likesCount a = Job.likesCount b.

(** Concrete stores used to run the operations. *)
Module Examples.
Definition userU : User.UserType := User.mk "U" "Usuario U" None.
Definition userV : User.UserType :=
  User.mk "V" "Usuario V" (Some "https://randomuser.me/api/portraits/women/7.jpg").

Definition noon : Clock := fun _ => 1700000000000.

(** The provider mounted by [userU] with the API down and nothing cached. *)
Definition seeded : Store := mount (Some userU) None Remote.NetworkError noon.

(** Seed job '2' liked by U, then by V; U is the acting user again. *)
Definition likedByBoth : Store :=
  run [ToggleJobLike "2"; AuthChange (Some userV); ToggleJobLike "2";
       AuthChange (Some userU)] seeded.

(** A remote job whose liker list names U twice. *)
Definition rawLikedTwice : Remote.RawJob :=
  Remote.mk
    (NewJob.mk "Logo" "Un logotipo" 500 "Diseño" ["Branding"] "user3" "Ana" None open)
    "7" 1699990000000 None
    (Some [Remote.mkLiker "U"; Remote.mkLiker "U"]) None.


(** The object literal [{ likedBy: ['U'] }]. *)
Definition onlyLikedByU : Partial.PartialJobType :=
  Partial.mk None None None None None None None None None None None None
             (Some ["U"]) None None.

(** Seed job '2' after [updateJob('2', { likedBy: ['U'] })]: the counter
    is still 0. *)
Definition counterBehind : Store := run [UpdateJob "2" onlyLikedByU] seeded.

(** A job that is in no store, for defaults. *)
Definition noJob : Job.JobType :=
  Job.mk "" "" "" 0 "" [] "" "" None open 0 [] [] 0 [].
End Examples.

(** The job that [addJob] builds from its argument and the clock. *)
Definition jobOf (newJob : NewJob.NewJobType) (clk : Clock) : Job.JobType :=
  Job.mk (toString (clk 0%nat))
    (NewJob.title newJob) (NewJob.description newJob) (NewJob.budget newJob)
    (NewJob.category newJob) (NewJob.skills newJob) (NewJob.userId newJob)
    (NewJob.userName newJob) (NewJob.userPhoto newJob) (NewJob.status newJob)
    (clk 1%nat) [] [] 0 [].

(** The cache holds the job list whenever the list is not empty. *)
Definition Mirrored (s : Store) : Prop :=
  jobs s <> [] -> localStorage s = Some (Snapshot (jobs s)).

(** ** Classes of actions *)

(** The operations of the context value, as opposed to a refresh and to a
    change of the acting user. *)
Definition isOperation (a : Action) : bool :=
  match a with
  | RefreshJobs _ _ | AuthChange _ => false
  | _ => true
  end.

(** The actions that cannot write [likedBy], [likesCount] or [savedBy]
    wholesale: all but [updateJob], whose partial may carry them, and a
    refresh, which replaces the list. *)
Definition editsSocialStateInPlace (a : Action) : bool :=
  match a with
  | UpdateJob _ _ | RefreshJobs _ _ => false
  | _ => true
  end.

(** Whether the call that an action stands for ends in an exception. *)
Definition isThrown {A : Type} (o : Outcome A) : bool :=
  match o with
  | Thrown => true
  | Returned _ => false
  end.

Definition throws (a : Action) (s : Store) : bool :=
  match a with
  | AddJob newJob clk => isThrown (snd (addJob newJob clk s))
  | UpdateJob jobId updates => isThrown (snd (updateJob jobId updates s))
  | DeleteJob jobId => isThrown (snd (deleteJob jobId s))
  | AddCommentToJob jobId content user clk =>
      isThrown (snd (addCommentToJob jobId content user clk s))
  | AddReplyToComment jobId commentId content user clk =>
      isThrown (snd (addReplyToComment jobId commentId content user clk s))
  | ToggleJobLike jobId => isThrown (snd (toggleJobLike jobId s))
  | ToggleSaveJob jobId => isThrown (snd (toggleSaveJob jobId s))
  | RefreshJobs _ _ | AuthChange _ => false
  end.

(** The calls that are handed no user object to read the author from. *)
Definition lacksAuthor (a : Action) : bool :=
  match a with
  | AddCommentToJob _ _ None _ | AddReplyToComment _ _ _ None _ => true
  | _ => false
  end.

(** ** How a status is shown (JobCard.tsx and JobDetail.tsx) *)

(** [a === b] on the three status strings. *)
Definition status_eqb (a b : JobStatus) : bool :=
  match a, b with
  | open, open | in_progress, in_progress | completed, completed => true
  | _, _ => false
  end.

Module JobCard.
(** The colour classes interpolated into the badge's [className]. *)
Definition statusClass (status : JobStatus) : string :=
  if status_eqb status open then "bg-green-100 text-green-800"
  else if status_eqb status in_progress then "bg-blue-100 text-blue-800"
  else "bg-gray-100 text-gray-800".

(** The text of the badge. *)
Definition statusLabel (status : JobStatus) : string :=
  if status_eqb status open then "Abierto"
  else if status_eqb status in_progress then "En progreso"
  else "Completado".
End JobCard.

Module JobDetail.
(** The colour classes interpolated into the [className] of "Estado". *)
Definition statusClass (status : JobStatus) : string :=
  if status_eqb status open then "bg-green-100 text-green-800"
  else if status_eqb status in_progress then "bg-blue-100 text-blue-800"
  else "bg-gray-100 text-gray-800".

(** The text shown for "Estado". *)
Definition statusLabel (status : JobStatus) : string :=
  if status_eqb status open then "Abierto"
  else if status_eqb status in_progress then "En progreso"
  else "Completado".

(** [const isOwner = currentUser && currentUser.id === job.userId] as the
    condition of the edit and delete buttons. *)
Definition isOwner (currentUser : option User.UserType) (job : Job.JobType) : bool :=
  match currentUser with
  | Some u => String.eqb (User.id u) (Job.userId job)
  | None => false
  end.
End JobDetail.

(** * Properties *)

(** ** Arrays of user ids *)

Lemma includes_true_iff (xs : list string) (x : string) :
  includes xs x = true <-> In x xs.
Proof.
  unfold includes. rewrite existsb_exists. split.
  - intros [y [Hy Heq]]. apply String.eqb_eq in Heq. now subst.
  - intros Hin. exists x. split; [assumption | apply String.eqb_refl].
Qed.

Lemma includes_false_iff (xs : list string) (x : string) :
  includes xs x = false <-> ~ In x xs.
Proof.
  rewrite <- includes_true_iff. destruct (includes xs x); split; congruence.
Qed.

Lemma in_without (xs : list string) (x y : string) :
  In y (without xs x) <-> In y xs /\ y <> x.
Proof.
  unfold without. rewrite filter_In, negb_true_iff, String.eqb_neq. tauto.
Qed.

Lemma without_absent (xs : list string) (x : string) :
  ~ In x xs -> without xs x = xs.
Proof.
  induction xs as [|y ys IH]; simpl; intros Hnin; [reflexivity|].
  destruct (String.eqb_spec y x) as [->|Hne]; simpl.
  - exfalso. apply Hnin. now left.
  - f_equal. apply IH. intros Hin. apply Hnin. now right.
Qed.

Lemma without_app (xs ys : list string) (x : string) :
  without (xs ++ ys) x = without xs x ++ without ys x.
Proof. unfold without. apply filter_app. Qed.

Lemma without_self (x : string) : without [x] x = [].
Proof. unfold without. simpl. now rewrite String.eqb_refl. Qed.

Lemma without_snoc (xs : list string) (x : string) :
  ~ In x xs -> without (xs ++ [x]) x = xs.
Proof.
  intros Hnin. rewrite without_app, without_self, app_nil_r.
  now apply without_absent.
Qed.

Lemma NoDup_without (xs : list string) (x : string) :
  NoDup xs -> NoDup (without xs x).
Proof. apply NoDup_filter. Qed.

Lemma NoDup_snoc (xs : list string) (x : string) :
  NoDup xs -> ~ In x xs -> NoDup (xs ++ [x]).
Proof.
  intros Hnd Hnin. apply NoDup_app.
  - assumption.
  - constructor; [intros [] | constructor].
  - intros y Hy [Hx|[]]. subst. contradiction.
Qed.

(** Removing an id that occurs exactly once shortens the array by one. *)
Lemma length_without_present (xs : list string) (x : string) :
  NoDup xs -> In x xs -> S (List.length (without xs x)) = List.length xs.
Proof.
  induction xs as [|y ys IH]; simpl; intros Hnd Hin; [contradiction|].
  inversion Hnd as [|? ? Hny Hnd']; subst.
  destruct (String.eqb_spec y x) as [->|Hne]; simpl.
  - now rewrite without_absent.
  - destruct Hin as [Heq|Hin]; [congruence|].
    f_equal. now apply IH.
Qed.

(** ** What each operation does to the job list *)

Lemma jobs_afterJobsChange (s : Store) : jobs (afterJobsChange s) = jobs s.
Proof.
  unfold afterJobsChange, persistJobs, updateSavedJobs.
  destruct (currentUser s); simpl; destruct (_ <? _); reflexivity.
Qed.

Lemma currentUser_afterJobsChange (s : Store) :
  currentUser (afterJobsChange s) = currentUser s.
Proof.
  unfold afterJobsChange, persistJobs, updateSavedJobs.
  destruct (currentUser s) eqn:E; simpl; destruct (_ <? _); simpl; now rewrite ?E.
Qed.

Lemma jobs_toggleJobLike (jobId : string) (s : Store) :
  jobs (fst (toggleJobLike jobId s)) =
  match currentUser s with
  | Some u => map (likeToggled (User.id u) jobId) (jobs s)
  | None => jobs s
  end.
Proof.
  unfold toggleJobLike. destruct (currentUser s); simpl; [|reflexivity].
  now rewrite jobs_afterJobsChange.
Qed.

Lemma jobs_toggleSaveJob (jobId : string) (s : Store) :
  jobs (fst (toggleSaveJob jobId s)) =
  match currentUser s with
  | Some u => map (saveToggled (User.id u) jobId) (jobs s)
  | None => jobs s
  end.
Proof.
  unfold toggleSaveJob. destruct (currentUser s) eqn:E; simpl; [|reflexivity].
  rewrite jobs_afterJobsChange. unfold updateSavedJobsFrom. simpl.
  now rewrite E.
Qed.

Lemma currentUser_toggleJobLike (jobId : string) (s : Store) :
  currentUser (fst (toggleJobLike jobId s)) = currentUser s.
Proof.
  unfold toggleJobLike. destruct (currentUser s) eqn:E; simpl; [|assumption].
  now rewrite currentUser_afterJobsChange.
Qed.

Lemma jobs_authChange (user : option User.UserType) (s : Store) :
  jobs (authChange user s) = jobs s.
Proof. unfold authChange, updateSavedJobs. simpl. now destruct user. Qed.



(** ** The like counter and the liker array *)

Lemma likeToggled_invariant (uid jobId : string) (job : Job.JobType) :
  JobInvariant job -> JobInvariant (likeToggled uid jobId job).
Proof.
  intros (Hcount & Hliked & Hsaved). unfold likeToggled.
  destruct (String.eqb (Job.id job) jobId); [|now repeat split].
  destruct (includes (Job.likedBy job) uid) eqn:Hinc; unfold JobInvariant; simpl.
  - apply includes_true_iff in Hinc.
    pose proof (length_without_present _ _ Hliked Hinc) as Hlen.
    repeat split; [lia | now apply NoDup_without | assumption].
  - apply includes_false_iff in Hinc.
    repeat split; [|now apply NoDup_snoc | assumption].
    rewrite length_app. simpl. lia.
Qed.




Lemma run_reachable (actions : list Action) :
  forall s, Reachable s -> Reachable (run actions s).
Proof.
  induction actions as [|a actions IH]; intros s Hs; simpl; [assumption|].
  apply IH. now apply reach_step.
Qed.



(** The invariant gives the counter the room that two toggles need. *)
Lemma JobInvariant_counter_room (uid : string) (job : Job.JobType) :
  JobInvariant job ->
  (if includes (Job.likedBy job) uid then 1 else 0) <= Job.likesCount job.
Proof.
  intros (Hcount & _ & _). rewrite Hcount.
  destruct (includes (Job.likedBy job) uid) eqn:Hinc; [|lia].
  apply includes_true_iff in Hinc.
  destruct (Job.likedBy job); [contradiction | simpl; lia].
Qed.

(** ** Toggling a like twice *)

Lemma with_likes_same (job : Job.JobType) :
  Job.with_likes job (Job.likedBy job) (Job.likesCount job) = job.
Proof. now destruct job. Qed.

Lemma includes_without (xs : list string) (x : string) :
  includes (without xs x) x = false.
Proof. apply includes_false_iff. rewrite in_without. tauto. Qed.

Lemma includes_snoc (xs : list string) (x : string) :
  includes (xs ++ [x]) x = true.
Proof. apply includes_true_iff, in_or_app. right. now left. Qed.

(** The job function applied twice, case by case. *)
Lemma likeToggled_twice (uid jobId : string) (job : Job.JobType) :
  Job.id job = jobId ->
  likeToggled uid jobId (likeToggled uid jobId job) =
  if includes (Job.likedBy job) uid
  then Job.with_likes job (without (Job.likedBy job) uid ++ [uid])
                      (Z.max 0 (Job.likesCount job - 1) + 1)
  else Job.with_likes job (without (Job.likedBy job ++ [uid]) uid)
                      (Z.max 0 (Job.likesCount job + 1 - 1)).
Proof.
  intros Hid. unfold likeToggled at 2. rewrite Hid, String.eqb_refl.
  destruct (includes (Job.likedBy job) uid) eqn:Hinc; unfold likeToggled; simpl;
    rewrite Hid, String.eqb_refl.
  - now rewrite includes_without.
  - now rewrite includes_snoc.
Qed.

Lemma jobs_toggleJobLikeTwice (jobId : string) (s : Store) (u : User.UserType) :
  currentUser s = Some u ->
  jobs (toggleJobLikeTwice jobId s) =
  map (fun job => likeToggled (User.id u) jobId (likeToggled (User.id u) jobId job))
      (jobs s).
Proof.
  intros Hu. unfold toggleJobLikeTwice.
  rewrite jobs_toggleJobLike, currentUser_toggleJobLike, Hu.
  rewrite jobs_toggleJobLike, Hu. apply map_map.
Qed.

(** C2 (amended): for a job of the store and an authenticated user,
    toggling the like twice changes no field but likedBy and likesCount
    and brings likedBy back to the same set of ids: the identical array if
    the user had not liked the job, otherwise the array with the user's
    id removed and appended at the end.  likesCount ends at
    max(0, n - 1) + 1 if the user had liked the job and at max(0, n)
    otherwise, which is its original value n when the counter was not
    below what the first toggle takes from it (at least 1 if the user had
    liked the job, at least 0 otherwise, as it is whenever likesCount
    equals the size of likedBy); the job is identical to the original when
    the user had not liked it and the counter was at least 0.  On seed
    job '2' one toggle by U yields likedBy=['U'] and likesCount=1 and the
    second yields likedBy=[] and likesCount=0. *)
Theorem toggleJobLike_twice_restores :
  (forall (s : Store) (u : User.UserType) (jobId : string) (i : nat) (job : Job.JobType),
      currentUser s = Some u ->
      nth_error (jobs s) i = Some job ->
      Job.id job = jobId ->
      exists job',
        nth_error (jobs (toggleJobLikeTwice jobId s)) i = Some job'
        /\ Job.likedBy job' =
           (if includes (Job.likedBy job) (User.id u)
            then without (Job.likedBy job) (User.id u) ++ [User.id u]
            else Job.likedBy job)
        /\ (forall x, In x (Job.likedBy job') <-> In x (Job.likedBy job))
        /\ SameExceptLikes job' job
        /\ Job.likesCount job' =
           (if includes (Job.likedBy job) (User.id u)
            then Z.max 0 (Job.likesCount job - 1) + 1
            else Z.max 0 (Job.likesCount job))
        /\ ((if includes (Job.likedBy job) (User.id u) then 1 else 0) <= Job.likesCount job ->
            Job.likesCount job' = Job.likesCount job)
        /\ (includes (Job.likedBy job) (User.id u) = false ->
            0 <= Job.likesCount job -> job' = job))
  /\ (forall (U : User.UserType) (clk : Clock),
        let s0 := mount (Some U) None Remote.NetworkError clk in
        let s1 := fst (toggleJobLike "2" s0) in
        let s2 := fst (toggleJobLike "2" s1) in
        option_map (fun job => (Job.likedBy job, Job.likesCount job)) (findJob "2" (jobs s0))
          = Some ([], 0)
        /\ option_map (fun job => (Job.likedBy job, Job.likesCount job)) (findJob "2" (jobs s1))
          = Some ([User.id U], 1)
        /\ option_map (fun job => (Job.likedBy job, Job.likesCount job)) (findJob "2" (jobs s2))
          = Some ([], 0)).
Proof.
  split.
  - intros s u jobId i job Hu Hnth Hid.
    rewrite (jobs_toggleJobLikeTwice _ _ _ Hu), nth_error_map, Hnth. simpl.
    eexists. split; [reflexivity|].
    rewrite (likeToggled_twice _ _ _ Hid).
    destruct (includes (Job.likedBy job) (User.id u)) eqn:Hinc.
    + apply includes_true_iff in Hinc.
      cbn [Job.likedBy Job.likesCount Job.with_likes].
      split; [reflexivity|]. split; [|split; [|split; [|split]]].
      * intros x. split.
        -- intros Hx. apply in_app_or in Hx as [Hx|[<-|[]]]; [|assumption].
           now apply in_without in Hx.
        -- intros Hx. apply in_or_app.
           destruct (String.eqb_spec x (User.id u)) as [->|Hne];
             [right; now left | left; now apply in_without].
      * unfold SameExceptLikes. simpl. repeat split.
      * reflexivity.
      * intros Hroom. lia.
      * discriminate.
    + apply includes_false_iff in Hinc.
      rewrite (without_snoc _ _ Hinc).
      replace (Job.likesCount job + 1 - 1) with (Job.likesCount job) by lia.
      cbn [Job.likedBy Job.likesCount Job.with_likes].
      split; [reflexivity|]. split; [tauto|]. split; [|split; [|split]].
      * unfold SameExceptLikes. simpl. repeat split.
      * reflexivity.
      * intros Hroom. lia.
      * intros _ Hpos. rewrite Z.max_r by assumption. apply with_likes_same.
  - intros U clk. cbv zeta.
    rewrite !jobs_toggleJobLike, currentUser_toggleJobLike. simpl.
    unfold likeToggled; simpl. rewrite String.eqb_refl. simpl. repeat split.
Qed.

Lemma toggleJobLike_twice_restores_witness :
  (currentUser Examples.likedByBoth = Some Examples.userU
   /\ exists job',
        nth_error (jobs (toggleJobLikeTwice "2" Examples.likedByBoth)) 1 = Some job'
        /\ Job.likesCount job' = 2
        /\ Job.likedBy job' = ["V"; "U"])
  /\ (currentUser Examples.counterBehind = Some Examples.userU
      /\ exists job',
           nth_error (jobs (toggleJobLikeTwice "2" Examples.counterBehind)) 1 = Some job'
           /\ Job.likesCount job' = 1
           /\ Job.likedBy job' = ["U"]).
Proof.
  split; (split; [reflexivity|]).
  - destruct (proj1 toggleJobLike_twice_restores Examples.likedByBoth Examples.userU "2"
                1%nat (nth 1 (jobs Examples.likedByBoth) Examples.noJob)
                eq_refl eq_refl eq_refl)
      as (job' & Hnth & Hliked & _ & _ & _ & Hrestored & _).
    exists job'. split; [exact Hnth|]. split; [|exact Hliked].
    rewrite Hrestored; [reflexivity | vm_compute; discriminate].
  - destruct (proj1 toggleJobLike_twice_restores Examples.counterBehind Examples.userU "2"
                1%nat (nth 1 (jobs Examples.counterBehind) Examples.noJob)
                eq_refl eq_refl eq_refl)
      as (job' & Hnth & Hliked & _ & _ & Hcount & _).
    exists job'. split; [exact Hnth|]. split; [exact Hcount | exact Hliked].
Defined.

(** Where an exact return fails.  Seed job '2' is liked by U
    and then by V; when U unlikes and likes it again, U's id has moved
    behind V's.  And a counter that starts below its likers does not come
    back: after [updateJob('2', { likedBy: ['U'] })] two toggles by U turn
    likesCount 0 into 1. *)
Lemma toggleJobLike_twice_not_exact :
  (Reachable Examples.likedByBoth
   /\ currentUser Examples.likedByBoth = Some Examples.userU
   /\ Forall JobInvariant (jobs Examples.likedByBoth)
   /\ option_map Job.likedBy (findJob "2" (jobs Examples.likedByBoth))
      = Some ["U"; "V"]
   /\ option_map Job.likedBy
        (findJob "2" (jobs (toggleJobLikeTwice "2" Examples.likedByBoth)))
      = Some ["V"; "U"]
   /\ option_map Job.likedBy
        (findJob "2" (jobs (toggleJobLikeTwice "2" Examples.likedByBoth)))
      <> option_map Job.likedBy (findJob "2" (jobs Examples.likedByBoth)))
  /\ (Reachable Examples.counterBehind
      /\ option_map Job.likesCount (findJob "2" (jobs Examples.counterBehind)) = Some 0
      /\ option_map Job.likesCount
           (findJob "2" (jobs (toggleJobLikeTwice "2" Examples.counterBehind)))
         = Some 1).
Proof.
  split; [split; [|split; [|split; [|split; [|split]]]] | split; [|split]];
    try reflexivity; try (apply run_reachable, reach_mount); try discriminate.
  vm_compute jobs. repeat constructor; simpl; intuition discriminate.
Qed.

(** ** Loading with the API down and nothing cached *)



(** C3: when the remote fetch fails (the request is rejected, the
    response is not ok or its body does not parse) and local storage holds
    no snapshot, the job list
    after [fetchJobs] is exactly the seed dataset of five jobs, ids '1' to
    '5', and local storage holds that same dataset; no error is flagged and
    loading is over. *)
Theorem fetchJobs_falls_back_to_seed
    (response : Remote.Response) (clk : Clock) (s : Store) :
  Remote.failed response = true ->
  localStorage s = None ->
  jobs (fetchJobs response clk s) = getMockJobs clk
  /\ List.length (jobs (fetchJobs response clk s)) = 5%nat
  /\ map Job.id (jobs (fetchJobs response clk s)) = ["1"; "2"; "3"; "4"; "5"]
  /\ localStorage (fetchJobs response clk s) = Some (Snapshot (getMockJobs clk))
  /\ error (fetchJobs response clk s) = error s
  /\ isLoading (fetchJobs response clk s) = false.
Proof.
  intros Hfail Hnone.
  assert (Hfetch : fetchJobs response clk s
                   = setIsLoading false (loadFallback clk (setIsLoading true s))).
  { destruct response; try discriminate Hfail; reflexivity. }
  rewrite Hfetch. unfold loadFallback. simpl. rewrite Hnone.
  unfold afterJobsChange, persistJobs, updateSavedJobs. simpl.
  destruct (currentUser s); simpl; repeat split.
Qed.

Lemma fetchJobs_falls_back_to_seed_witness :
  localStorage (initial (Some Examples.userU) None) = None
  /\ map Job.id (jobs (fetchJobs Remote.NotOk Examples.noon
                                 (initial (Some Examples.userU) None)))
     = ["1"; "2"; "3"; "4"; "5"]
  /\ localStorage (fetchJobs Remote.NotOk Examples.noon
                             (initial (Some Examples.userU) None))
     = Some (Snapshot (getMockJobs Examples.noon)).
Proof.
  split; [reflexivity|].
  destruct (fetchJobs_falls_back_to_seed Remote.NotOk Examples.noon
              (initial (Some Examples.userU) None) eq_refl eq_refl)
    as (_ & _ & Hids & Hcache & _).
  split; assumption.
Defined.

(** ** Comments and replies *)

Lemma jobs_addCommentToJob (jobId content : string) (u : User.UserType)
    (clk : Clock) (s : Store) :
  jobs (fst (addCommentToJob jobId content (Some u) clk s)) =
  map (fun job =>
         if String.eqb (Job.id job) jobId
         then Job.with_comments job (newCommentOf content u clk :: Job.comments job)
         else job)
      (jobs s).
Proof. unfold addCommentToJob. simpl. now rewrite jobs_afterJobsChange. Qed.

Lemma jobs_addReplyToComment (jobId commentId content : string) (u : User.UserType)
    (clk : Clock) (s : Store) :
  jobs (fst (addReplyToComment jobId commentId content (Some u) clk s)) =
  map (fun job =>
         if String.eqb (Job.id job) jobId
         then Job.with_comments job
                (map (fun comment =>
                        if String.eqb (Comment.id comment) commentId
                        then Comment.with_replies comment
                               (Comment.replies comment ++ [newReplyOf content u clk])
                        else comment)
                     (Job.comments job))
         else job)
      (jobs s).
Proof. unfold addReplyToComment. simpl. now rewrite jobs_afterJobsChange. Qed.

(** C4: for a job of the store, addCommentToJob makes the newly built
    comment the first element of that job's comments, followed by the
    comments it had, in their order; addReplyToComment on a comment of
    that job makes the new reply the last element of that comment's
    replies, after the replies it had, in their order. *)
Theorem comments_newest_first_replies_oldest_first :
  (forall (s : Store) (jobId content : string) (u : User.UserType) (clk : Clock)
          (i : nat) (job : Job.JobType),
      nth_error (jobs s) i = Some job ->
      Job.id job = jobId ->
      exists job',
        nth_error (jobs (fst (addCommentToJob jobId content (Some u) clk s))) i = Some job'
        /\ Job.comments job' = newCommentOf content u clk :: Job.comments job
        /\ hd_error (Job.comments job') = Some (newCommentOf content u clk))
  /\ (forall (s : Store) (jobId commentId content : string) (u : User.UserType)
             (clk : Clock) (i k : nat) (job : Job.JobType) (comment : Comment.CommentType),
        nth_error (jobs s) i = Some job ->
        Job.id job = jobId ->
        nth_error (Job.comments job) k = Some comment ->
        Comment.id comment = commentId ->
        exists job' comment',
          nth_error (jobs (fst (addReplyToComment jobId commentId content (Some u) clk s))) i
            = Some job'
          /\ nth_error (Job.comments job') k = Some comment'
          /\ Comment.replies comment' = Comment.replies comment ++ [newReplyOf content u clk]
          /\ last (Comment.replies comment') (newReplyOf "" u clk)
             = newReplyOf content u clk).
Proof.
  split.
  - intros s jobId content u clk i job Hnth Hid.
    rewrite jobs_addCommentToJob, nth_error_map, Hnth. simpl.
    apply String.eqb_eq in Hid. rewrite Hid.
    eexists. split; [reflexivity|]. split; reflexivity.
  - intros s jobId commentId content u clk i k job comment Hnth Hid Hk Hcid.
    rewrite jobs_addReplyToComment, nth_error_map, Hnth. simpl.
    apply String.eqb_eq in Hid, Hcid. rewrite Hid.
    eexists. eexists. split; [reflexivity|]. simpl.
    rewrite nth_error_map, Hk. simpl. rewrite Hcid.
    split; [reflexivity|]. simpl. split; [reflexivity|].
    apply last_last.
Qed.

Lemma comments_newest_first_replies_oldest_first_witness :
  (exists job',
      nth_error (jobs (fst (addCommentToJob "1" "Hola" (Some Examples.userV)
                                            Examples.noon Examples.seeded))) 0 = Some job'
      /\ map Comment.id (Job.comments job') = ["1700000000000"; "c1"])
  /\ (exists job' comment',
        nth_error (jobs (fst (addReplyToComment "1" "c1" "De acuerdo" (Some Examples.userV)
                                                Examples.noon Examples.seeded))) 0 = Some job'
        /\ nth_error (Job.comments job') 0 = Some comment'
        /\ map Reply.id (Comment.replies comment') = ["r1"; "1700000000000"]).
Proof.
  split.
  - destruct (proj1 comments_newest_first_replies_oldest_first Examples.seeded "1" "Hola"
                Examples.userV Examples.noon 0%nat
                (nth 0 (getMockJobs Examples.noon) Examples.noJob))
      as (job' & Hnth & Hcs & _); [reflexivity | reflexivity |].
    exists job'. split; [assumption|]. rewrite Hcs. reflexivity.
  - destruct (proj2 comments_newest_first_replies_oldest_first Examples.seeded "1" "c1"
                "De acuerdo" Examples.userV Examples.noon 0%nat 0%nat
                (nth 0 (getMockJobs Examples.noon) Examples.noJob)
                (nth 0 (Job.comments (nth 0 (getMockJobs Examples.noon)
                                          Examples.noJob))
                     (newCommentOf "" Examples.userV Examples.noon)))
      as (job' & comment' & Hnth & Hk & Hrs & _);
      [reflexivity | reflexivity | reflexivity | reflexivity |].
    exists job', comment'. repeat split; try assumption. rewrite Hrs. reflexivity.
Defined.

(** ** Deleting and looking up *)

Lemma jobs_deleteJob (jobId : string) (s : Store) :
  jobs (fst (deleteJob jobId s)) =
  filter (fun job => negb (String.eqb (Job.id job) jobId)) (jobs s).
Proof. unfold deleteJob. simpl. now rewrite jobs_afterJobsChange. Qed.

Lemma findJob_None (jobId : string) (js : list Job.JobType) :
  (forall job, In job js -> Job.id job <> jobId) -> findJob jobId js = None.
Proof.
  intros Hall. unfold findJob.
  destruct (find _ js) as [job|] eqn:Hfind; [|reflexivity].
  apply find_some in Hfind as [Hin Heq]. apply String.eqb_eq in Heq.
  now apply Hall in Hin.
Qed.

(** C5: for every job id, in particular the id of a job currently in the
    store, getJob after deleteJob of that id finds no job, and getJob
    hands back the store it was given: it changes neither the job list
    nor anything else. *)
Theorem deleteJob_then_getJob_not_found (jobId : string) (s : Store) :
  fst (getJob jobId (fst (deleteJob jobId s))) = None
  /\ snd (getJob jobId s) = s
  /\ jobs (snd (getJob jobId s)) = jobs s.
Proof.
  split; [|split; reflexivity].
  unfold getJob. cbn [fst]. rewrite jobs_deleteJob.
  apply findJob_None. intros job Hin Hid.
  apply filter_In in Hin as [_ Hkeep].
  apply String.eqb_eq in Hid. rewrite Hid in Hkeep. discriminate.
Qed.

(** The same on the seed data: job '3' is found before and not after. *)
Example deleteJob_seed_job_3 :
  option_map Job.id (fst (getJob "3" Examples.seeded)) = Some "3"
  /\ fst (getJob "3" (fst (deleteJob "3" Examples.seeded))) = None
  /\ map Job.id (jobs (fst (deleteJob "3" Examples.seeded))) = ["1"; "2"; "4"; "5"].
Proof. repeat split. Qed.

(** ** The saved-jobs view *)

Lemma savedJobs_afterJobsChange (s : Store) :
  savedJobs (afterJobsChange s) = savedView (afterJobsChange s).
Proof.
  unfold savedView. rewrite currentUser_afterJobsChange, jobs_afterJobsChange.
  unfold afterJobsChange, persistJobs, updateSavedJobs.
  destruct (currentUser s); simpl; destruct (_ <? _); reflexivity.
Qed.

Lemma savedJobs_updateSavedJobs (s : Store) :
  savedJobs (updateSavedJobs s) = savedView (updateSavedJobs s).
Proof.
  unfold savedView, updateSavedJobs.
  destruct (currentUser s) eqn:E; simpl; rewrite E; reflexivity.
Qed.

(** Cells that the view does not read may change freely. *)
Lemma view_setIsLoading (b : bool) (s : Store) :
  savedJobs s = savedView s ->
  savedJobs (setIsLoading b s) = savedView (setIsLoading b s).
Proof. intros H. exact H. Qed.

Lemma view_setError (e : string) (s : Store) :
  savedJobs s = savedView s -> savedJobs (setError e s) = savedView (setError e s).
Proof. intros H. exact H. Qed.

Lemma view_toast (t : Toast) (s : Store) :
  savedJobs s = savedView s -> savedJobs (toast t s) = savedView (toast t s).
Proof. intros H. exact H. Qed.

Lemma view_fetchJobs (response : Remote.Response) (clk : Clock) (s : Store) :
  savedJobs s = savedView s ->
  savedJobs (fetchJobs response clk s) = savedView (fetchJobs response clk s).
Proof.
  intros Hview. unfold fetchJobs. apply view_setIsLoading.
  destruct response; try apply savedJobs_afterJobsChange;
    try (now apply view_setIsLoading).
  all: unfold loadFallback;
    destruct (localStorage _) as [[js|]|]; try apply savedJobs_afterJobsChange;
    now apply view_setError, view_setIsLoading.
Qed.

Lemma view_step (a : Action) (s : Store) :
  savedJobs s = savedView s -> savedJobs (step a s) = savedView (step a s).
Proof.
  intros Hview. destruct a as [newJob clk | jobId updates | jobId
                              | jobId content user clk | jobId commentId content user clk
                              | jobId | jobId | response clk | user]; simpl.
  - apply savedJobs_afterJobsChange.
  - apply savedJobs_afterJobsChange.
  - apply savedJobs_afterJobsChange.
  - unfold addCommentToJob. destruct user; simpl;
      [apply savedJobs_afterJobsChange | now apply view_setError].
  - unfold addReplyToComment. destruct user; simpl;
      [apply savedJobs_afterJobsChange | now apply view_setError].
  - unfold toggleJobLike. destruct (currentUser s) eqn:E; simpl;
      [apply savedJobs_afterJobsChange | now apply view_toast].
  - unfold toggleSaveJob. destruct (currentUser s) eqn:E; simpl;
      [apply savedJobs_afterJobsChange | now apply view_toast].
  - now apply view_fetchJobs.
  - apply savedJobs_updateSavedJobs.
Qed.

Lemma view_reachable (s : Store) : Reachable s -> savedJobs s = savedView s.
Proof.
  induction 1 as [user cache response clk | a s _ IH].
  - unfold mount. apply view_fetchJobs, savedJobs_updateSavedJobs.
  - now apply view_step.
Qed.

(** C6: in every store the provider can reach (mounted, then any
    operations and changes of the acting user), the saved-jobs view is the
    job list filtered by "savedBy contains the acting user's id", in the
    order of the job list, and is the empty list when no user is
    authenticated; the view is recomputed from the new job list by every
    toggleSaveJob of an authenticated user, by every replacement of the
    job list and by every change of the acting user, whatever it held
    before. *)
Theorem savedJobs_is_filter_of_jobs :
  (forall s : Store,
      Reachable s ->
      savedJobs s =
      match currentUser s with
      | Some u => filter (fun job => includes (Job.savedBy job) (User.id u)) (jobs s)
      | None => []
      end)
  /\ (forall (s : Store) (jobId : string) (u : User.UserType),
        currentUser s = Some u ->
        savedJobs (fst (toggleSaveJob jobId s)) =
        filter (fun job => includes (Job.savedBy job) (User.id u))
               (jobs (fst (toggleSaveJob jobId s))))
  /\ (forall (s : Store) (js : list Job.JobType),
        savedJobs (afterJobsChange (setJobsTo js s))
        = savedView (afterJobsChange (setJobsTo js s)))
  /\ (forall (s : Store) (user : option User.UserType),
        savedJobs (authChange user s) = savedView (authChange user s))
  /\ (forall s : Store, Reachable s -> currentUser s = None -> savedJobs s = []).
Proof.
  split; [exact view_reachable|]. split; [|split; [|split]].
  - intros s jobId u Hu. unfold toggleSaveJob. rewrite Hu. cbn [fst].
    rewrite savedJobs_afterJobsChange. unfold savedView.
    rewrite currentUser_afterJobsChange.
    unfold updateSavedJobsFrom. cbn. rewrite Hu. cbn. now rewrite Hu.
  - intros s js. apply savedJobs_afterJobsChange.
  - intros s user. apply savedJobs_updateSavedJobs.
  - intros s Hreach Hnone. rewrite (view_reachable s Hreach).
    unfold savedView. now rewrite Hnone.
Qed.

Lemma savedJobs_is_filter_of_jobs_witness :
  Reachable (step (ToggleSaveJob "4") (step (ToggleSaveJob "2") Examples.seeded))
  /\ map Job.id (savedJobs (step (ToggleSaveJob "4")
                                 (step (ToggleSaveJob "2") Examples.seeded)))
     = ["2"; "4"]
  /\ savedJobs (step (AuthChange None)
                     (step (ToggleSaveJob "2") Examples.seeded)) = [].
Proof.
  assert (H : Reachable (step (ToggleSaveJob "2") Examples.seeded)).
  { apply reach_step. apply reach_mount. }
  split; [now apply reach_step|]. split.
  - rewrite (proj1 savedJobs_is_filter_of_jobs _ (reach_step (ToggleSaveJob "4") _ H)).
    reflexivity.
  - apply (proj2 (proj2 (proj2 (proj2 savedJobs_is_filter_of_jobs)))).
    + now apply reach_step.
    + reflexivity.
Defined.

(** ** Toggling without a user *)

(** C7: with no authenticated user, toggleJobLike and toggleSaveJob emit
    the destructive "Error" notification, leave the job list (and the
    saved view, the cache and the error flag) as they were, and return
    normally. *)
Theorem toggles_without_user_are_noops (jobId : string) (s : Store) :
  currentUser s = None ->
  (jobs (fst (toggleJobLike jobId s)) = jobs s
   /\ snd (toggleJobLike jobId s) = Returned tt
   /\ toasts (fst (toggleJobLike jobId s))
      = toasts s ++ [mkToast destructive "Error" "Debes iniciar sesión para dar like"]
   /\ savedJobs (fst (toggleJobLike jobId s)) = savedJobs s
   /\ localStorage (fst (toggleJobLike jobId s)) = localStorage s
   /\ error (fst (toggleJobLike jobId s)) = error s)
  /\ (jobs (fst (toggleSaveJob jobId s)) = jobs s
      /\ snd (toggleSaveJob jobId s) = Returned tt
      /\ toasts (fst (toggleSaveJob jobId s))
         = toasts s ++ [mkToast destructive "Error"
                                "Debes iniciar sesión para guardar propuestas"]
      /\ savedJobs (fst (toggleSaveJob jobId s)) = savedJobs s
      /\ localStorage (fst (toggleSaveJob jobId s)) = localStorage s
      /\ error (fst (toggleSaveJob jobId s)) = error s).
Proof.
  intros Hnone. unfold toggleJobLike, toggleSaveJob. rewrite Hnone.
  repeat split.
Qed.

Lemma toggles_without_user_are_noops_witness :
  currentUser (authChange None Examples.seeded) = None
  /\ jobs (fst (toggleJobLike "2" (authChange None Examples.seeded)))
     = jobs (authChange None Examples.seeded)
  /\ jobs (fst (toggleSaveJob "2" (authChange None Examples.seeded)))
     = jobs (authChange None Examples.seeded).
Proof.
  split; [reflexivity|].
  destruct (toggles_without_user_are_noops "2" (authChange None Examples.seeded) eq_refl)
    as [(Hlike & _) (Hsave & _)].
  split; assumption.
Defined.

(** ** Frames *)

Lemma jobs_updateJob (jobId : string) (updates : Partial.PartialJobType) (s : Store) :
  jobs (fst (updateJob jobId updates s)) =
  map (fun job => if String.eqb (Job.id job) jobId then spread job updates else job)
      (jobs s).
Proof. unfold updateJob. simpl. now rewrite jobs_afterJobsChange. Qed.

(** C8: updateJob(id, {status: 'completed'}) keeps the length and order of
    the job list; a job with that id ends with status 'completed' and
    every other field (id, title, description, budget, category, skills,
    user fields, timestamp, comments, likedBy, likesCount, savedBy) as it
    was; every job with another id is unchanged. *)
Theorem updateJob_status_changes_only_status
    (jobId : string) (s : Store) (i : nat) (job : Job.JobType) :
  nth_error (jobs s) i = Some job ->
  List.length (jobs (fst (updateJob jobId (Partial.only_status completed) s)))
  = List.length (jobs s)
  /\ (Job.id job = jobId ->
      exists job',
        nth_error (jobs (fst (updateJob jobId (Partial.only_status completed) s))) i
          = Some job'
        /\ Job.status job' = completed
        /\ SameExceptStatus job' job)
  /\ (Job.id job <> jobId ->
      nth_error (jobs (fst (updateJob jobId (Partial.only_status completed) s))) i
        = Some job).
Proof.
  intros Hnth. rewrite jobs_updateJob, length_map, nth_error_map, Hnth. simpl.
  split; [reflexivity|]. split.
  - intros Hid. apply String.eqb_eq in Hid. rewrite Hid.
    eexists. split; [reflexivity|]. split; [reflexivity|].
    unfold SameExceptStatus. simpl. repeat split.
  - intros Hid. apply String.eqb_neq in Hid. now rewrite Hid.
Qed.

Lemma updateJob_status_changes_only_status_witness :
  map Job.status (jobs Examples.seeded) = [open; open; in_progress; open; completed]
  /\ map Job.status (jobs (fst (updateJob "3" (Partial.only_status completed)
                                          Examples.seeded)))
     = [open; open; completed; open; completed]
  /\ exists job',
       nth_error (jobs (fst (updateJob "3" (Partial.only_status completed)
                                       Examples.seeded))) 2 = Some job'
       /\ Job.title job' = "Traducción de documentos técnicos inglés-español".
Proof.
  split; [reflexivity|]. split; [reflexivity|].
  destruct (updateJob_status_changes_only_status "3" Examples.seeded 2%nat
              (nth 2 (getMockJobs Examples.noon) Examples.noJob)
              eq_refl)
    as (_ & Hsame & _).
  destruct (Hsame eq_refl) as (job' & Hnth & _ & Hrest).
  exists job'. split; [assumption|].
  destruct Hrest as (_ & Htitle & _). rewrite Htitle. reflexivity.
Defined.

(** Mapping a function that leaves every element alone. *)
Lemma map_unchanged {A : Type} (f : A -> A) (l : list A) :
  (forall x, In x l -> f x = x) -> map f l = l.
Proof.
  intros Hf. rewrite <- (map_id l) at 2. apply map_ext_in. exact Hf.
Qed.

Lemma filter_keeps_all {A : Type} (p : A -> bool) (l : list A) :
  (forall x, In x l -> p x = true) -> filter p l = l.
Proof.
  induction l as [|x xs IH]; simpl; intros Hp; [reflexivity|].
  rewrite (Hp x (or_introl eq_refl)). f_equal. apply IH.
  intros y Hy. apply Hp. now right.
Qed.

Lemma likeToggled_other (uid jobId : string) (job : Job.JobType) :
  Job.id job <> jobId -> likeToggled uid jobId job = job.
Proof. intros H. apply String.eqb_neq in H. unfold likeToggled. now rewrite H. Qed.

Lemma saveToggled_other (uid jobId : string) (job : Job.JobType) :
  Job.id job <> jobId -> saveToggled uid jobId job = job.
Proof. intros H. apply String.eqb_neq in H. unfold saveToggled. now rewrite H. Qed.

(** C9: when no job of the store has the given id, updateJob, deleteJob,
    addCommentToJob, addReplyToComment, toggleJobLike and toggleSaveJob
    (with or without an authenticated user) leave the job list as it was;
    and when no comment of the jobs with the given job id has the given
    comment id, addReplyToComment leaves the job list as it was. *)
Theorem unknown_ids_leave_jobs_unchanged :
  (forall (s : Store) (jobId : string),
      (forall job, In job (jobs s) -> Job.id job <> jobId) ->
      (forall updates, jobs (fst (updateJob jobId updates s)) = jobs s)
      /\ jobs (fst (deleteJob jobId s)) = jobs s
      /\ (forall content user clk,
             jobs (fst (addCommentToJob jobId content user clk s)) = jobs s)
      /\ (forall commentId content user clk,
             jobs (fst (addReplyToComment jobId commentId content user clk s)) = jobs s)
      /\ jobs (fst (toggleJobLike jobId s)) = jobs s
      /\ jobs (fst (toggleSaveJob jobId s)) = jobs s)
  /\ (forall (s : Store) (jobId commentId : string),
        (forall job comment,
            In job (jobs s) -> Job.id job = jobId ->
            In comment (Job.comments job) -> Comment.id comment <> commentId) ->
        forall content user clk,
          jobs (fst (addReplyToComment jobId commentId content user clk s)) = jobs s).
Proof.
  split.
  - intros s jobId Habsent.
    assert (Hneq : forall job, In job (jobs s) -> String.eqb (Job.id job) jobId = false).
    { intros job Hin. apply String.eqb_neq. now apply Habsent. }
    split; [|split; [|split; [|split; [|split]]]].
    + intros updates. rewrite jobs_updateJob. apply map_unchanged.
      intros job Hin. now rewrite (Hneq job Hin).
    + rewrite jobs_deleteJob. apply filter_keeps_all.
      intros job Hin. now rewrite (Hneq job Hin).
    + intros content [u|] clk; [|reflexivity].
      rewrite jobs_addCommentToJob. apply map_unchanged.
      intros job Hin. now rewrite (Hneq job Hin).
    + intros commentId content [u|] clk; [|reflexivity].
      rewrite jobs_addReplyToComment. apply map_unchanged.
      intros job Hin. now rewrite (Hneq job Hin).
    + rewrite jobs_toggleJobLike. destruct (currentUser s); [|reflexivity].
      apply map_unchanged. intros job Hin. apply likeToggled_other. now apply Habsent.
    + rewrite jobs_toggleSaveJob. destruct (currentUser s); [|reflexivity].
      apply map_unchanged. intros job Hin. apply saveToggled_other. now apply Habsent.
  - intros s jobId commentId Habsent content [u|] clk; [|reflexivity].
    rewrite jobs_addReplyToComment. apply map_unchanged.
    intros job Hin. destruct (String.eqb_spec (Job.id job) jobId) as [Hid|_]; [|reflexivity].
    rewrite map_unchanged; [now destruct job|].
    intros comment Hc.
    pose proof (Habsent job comment Hin Hid Hc) as Hne.
    apply String.eqb_neq in Hne. now rewrite Hne.
Qed.

Lemma unknown_ids_leave_jobs_unchanged_witness :
  jobs (fst (deleteJob "9" Examples.seeded)) = jobs Examples.seeded
  /\ jobs (fst (toggleJobLike "9" Examples.seeded)) = jobs Examples.seeded
  /\ jobs (fst (addReplyToComment "1" "c9" "Hola" (Some Examples.userV) Examples.noon
                                  Examples.seeded)) = jobs Examples.seeded.
Proof.
  assert (Hjob : forall job, In job (jobs Examples.seeded) -> Job.id job <> "9").
  { intros job Hin. simpl in Hin.
    destruct Hin as [<-|[<-|[<-|[<-|[<-|[]]]]]]; discriminate. }
  assert (Hcomment : forall job comment,
             In job (jobs Examples.seeded) -> Job.id job = "1" ->
             In comment (Job.comments job) -> Comment.id comment <> "c9").
  { intros job comment Hin Hid Hc. simpl in Hin.
    destruct Hin as [<-|[<-|[<-|[<-|[<-|[]]]]]]; simpl in Hc;
      try contradiction.
    destruct Hc as [<-|[]]. discriminate. }
  destruct (proj1 unknown_ids_leave_jobs_unchanged Examples.seeded "9" Hjob)
    as (_ & Hdel & _ & _ & Hlike & _).
  split; [exact Hdel|]. split; [exact Hlike|].
  exact (proj2 unknown_ids_leave_jobs_unchanged Examples.seeded "1" "c9" Hcomment
           "Hola" (Some Examples.userV) Examples.noon).
Defined.

Lemma likeToggled_frame (uid jobId : string) (job : Job.JobType) :
  SameExceptLikes (likeToggled uid jobId job) job.
Proof.
  unfold likeToggled, SameExceptLikes.
  destruct (String.eqb _ _); [destruct (includes _ _)|]; simpl; repeat split.
Qed.

Lemma saveToggled_frame (uid jobId : string) (job : Job.JobType) :
  SameExceptSavedBy (saveToggled uid jobId job) job.
Proof.
  unfold saveToggled, SameExceptSavedBy.
  destruct (String.eqb _ _); [destruct (includes _ _)|]; simpl; repeat split.
Qed.

(** C10: for an authenticated user and any job of the store, toggleJobLike
    leaves every field of the job but likedBy and likesCount as it was
    (savedBy and comments among them), toggleSaveJob leaves every field
    but savedBy as it was (likedBy, likesCount and comments among them),
    both leave jobs with another id untouched, and neither adds, removes
    or moves a job. *)
Theorem like_and_save_are_independent
    (jobId : string) (s : Store) (u : User.UserType) (i : nat) (job : Job.JobType) :
  currentUser s = Some u ->
  nth_error (jobs s) i = Some job ->
  (List.length (jobs (fst (toggleJobLike jobId s))) = List.length (jobs s)
   /\ exists job',
        nth_error (jobs (fst (toggleJobLike jobId s))) i = Some job'
        /\ SameExceptLikes job' job
        /\ (Job.id job <> jobId -> job' = job))
  /\ (List.length (jobs (fst (toggleSaveJob jobId s))) = List.length (jobs s)
      /\ exists job',
           nth_error (jobs (fst (toggleSaveJob jobId s))) i = Some job'
           /\ SameExceptSavedBy job' job
           /\ (Job.id job <> jobId -> job' = job)).
Proof.
  intros Hu Hnth.
  rewrite jobs_toggleJobLike, jobs_toggleSaveJob, Hu, !length_map, !nth_error_map, Hnth.
  simpl. split; (split; [reflexivity|]); eexists; (split; [reflexivity|]); split.
  - apply likeToggled_frame.
  - apply likeToggled_other.
  - apply saveToggled_frame.
  - apply saveToggled_other.
Qed.

Lemma like_and_save_are_independent_witness :
  currentUser Examples.seeded = Some Examples.userU
  /\ map (fun job => (Job.id job, Job.likedBy job, Job.likesCount job, Job.savedBy job))
         (jobs (fst (toggleJobLike "2" Examples.seeded)))
     = [("1", [], 0, []); ("2", ["U"], 1, []); ("3", [], 0, []);
        ("4", [], 0, []); ("5", [], 0, [])]
  /\ map (fun job => (Job.id job, Job.likedBy job, Job.likesCount job, Job.savedBy job))
         (jobs (fst (toggleSaveJob "2" Examples.seeded)))
     = [("1", [], 0, []); ("2", [], 0, ["U"]); ("3", [], 0, []);
        ("4", [], 0, []); ("5", [], 0, [])]
  /\ exists job',
       nth_error (jobs (fst (toggleJobLike "2" Examples.seeded))) 1 = Some job'
       /\ Job.savedBy job' = [] /\ Job.comments job' = [].
Proof.
  split; [reflexivity|]. split; [reflexivity|]. split; [reflexivity|].
  destruct (like_and_save_are_independent "2" Examples.seeded Examples.userU 1%nat
              (nth 1 (getMockJobs Examples.noon) Examples.noJob)
              eq_refl eq_refl)
    as ((_ & job' & Hnth & Hsame & _) & _).
  exists job'. split; [assumption|].
  destruct Hsame as (_ & _ & _ & _ & _ & _ & _ & _ & _ & _ & _ & Hcomments & Hsaved).
  rewrite Hsaved, Hcomments. split; reflexivity.
Defined.

(** * Further properties of the store *)

(** ** Cells that a render's effects leave alone *)

Lemma toasts_afterJobsChange (s : Store) : toasts (afterJobsChange s) = toasts s.
Proof.
  unfold afterJobsChange, persistJobs, updateSavedJobs.
  destruct (currentUser s); simpl; destruct (_ <? _); reflexivity.
Qed.

Lemma error_afterJobsChange (s : Store) : error (afterJobsChange s) = error s.
Proof.
  unfold afterJobsChange, persistJobs, updateSavedJobs.
  destruct (currentUser s); simpl; destruct (_ <? _); reflexivity.
Qed.

Lemma isLoading_afterJobsChange (s : Store) :
  isLoading (afterJobsChange s) = isLoading s.
Proof.
  unfold afterJobsChange, persistJobs, updateSavedJobs.
  destruct (currentUser s); simpl; destruct (_ <? _); reflexivity.
Qed.

(** The persistence effect writes a non-empty list and skips an empty one. *)
Lemma localStorage_after (s : Store) :
  localStorage (afterJobsChange s) =
  match jobs s with
  | [] => localStorage s
  | _ :: _ => Some (Snapshot (jobs s))
  end.
Proof.
  unfold afterJobsChange, persistJobs, updateSavedJobs.
  destruct (currentUser s); simpl; destruct (jobs s); reflexivity.
Qed.

Lemma currentUser_toggleSaveJob (jobId : string) (s : Store) :
  currentUser (fst (toggleSaveJob jobId s)) = currentUser s.
Proof.
  unfold toggleSaveJob. destruct (currentUser s) eqn:E; simpl; [|assumption].
  rewrite currentUser_afterJobsChange. unfold updateSavedJobsFrom. simpl.
  rewrite E. simpl. assumption.
Qed.

(** ** Creating a job *)

Lemma jobs_addJob (newJob : NewJob.NewJobType) (clk : Clock) (s : Store) :
  jobs (fst (addJob newJob clk s)) = jobOf newJob clk :: jobs s.
Proof. unfold addJob. cbn [fst]. now rewrite jobs_afterJobsChange. Qed.

Lemma findJob_cons_same (job : Job.JobType) (js : list Job.JobType) :
  findJob (Job.id job) (job :: js) = Some job.
Proof. unfold findJob. simpl. now rewrite String.eqb_refl. Qed.

(** X1: addJob returns the decimal text of the clock reading as the id;
    looking that id up afterwards finds the job just created, carrying
    the fields passed in, no comments, no likers, no savers and a counter
    of 0, even when an older job has the same id; the job is the head of
    the list, the older jobs follow unchanged, and the cache holds the new
    list. *)
Theorem addJob_then_getJob (newJob : NewJob.NewJobType) (clk : Clock) (s : Store) :
  exists jobId job,
    snd (addJob newJob clk s) = Returned jobId
    /\ jobId = toString (clk 0%nat)
    /\ fst (getJob jobId (fst (addJob newJob clk s))) = Some job
    /\ Job.id job = jobId
    /\ Job.title job = NewJob.title newJob
    /\ Job.description job = NewJob.description newJob
    /\ Job.budget job = NewJob.budget newJob
    /\ Job.category job = NewJob.category newJob
    /\ Job.skills job = NewJob.skills newJob
    /\ Job.userId job = NewJob.userId newJob
    /\ Job.userName job = NewJob.userName newJob
    /\ Job.userPhoto job = NewJob.userPhoto newJob
    /\ Job.status job = NewJob.status newJob
    /\ Job.timestamp job = clk 1%nat
    /\ Job.comments job = [] /\ Job.likedBy job = [] /\ Job.savedBy job = []
    /\ Job.likesCount job = 0
    /\ jobs (fst (addJob newJob clk s)) = job :: jobs s
    /\ localStorage (fst (addJob newJob clk s)) = Some (Snapshot (job :: jobs s)).
Proof.
  exists (toString (clk 0%nat)), (jobOf newJob clk).
  split; [reflexivity|]. split; [reflexivity|]. split.
  { unfold getJob. cbn [fst]. rewrite jobs_addJob.
    exact (findJob_cons_same (jobOf newJob clk) (jobs s)). }
  repeat (split; [reflexivity|]).
  split; [apply jobs_addJob|].
  unfold addJob. cbn [fst]. rewrite localStorage_after. reflexivity.
Qed.

(** X2: two addJob calls that read the same clock value get the same id.
    getJob of that id then finds the job created last, and one deleteJob
    of that id removes both, leaving the list as it was before the two
    were added when no older job had the id. *)
Theorem addJob_same_instant_shares_id
    (first second : NewJob.NewJobType) (clk1 clk2 : Clock) (s : Store) :
  clk1 0%nat = clk2 0%nat ->
  let s1 := fst (addJob first clk1 s) in
  let s2 := fst (addJob second clk2 s1) in
  snd (addJob first clk1 s) = snd (addJob second clk2 s1)
  /\ map Job.id (firstn 2 (jobs s2)) = [toString (clk1 0%nat); toString (clk1 0%nat)]
  /\ fst (getJob (toString (clk1 0%nat)) s2) = Some (jobOf second clk2)
  /\ jobs (fst (deleteJob (toString (clk1 0%nat)) s2))
     = filter (fun job => negb (String.eqb (Job.id job) (toString (clk1 0%nat)))) (jobs s)
  /\ ((forall job, In job (jobs s) -> Job.id job <> toString (clk1 0%nat)) ->
      jobs (fst (deleteJob (toString (clk1 0%nat)) s2)) = jobs s).
Proof.
  intros Hclk s1 s2. subst s1 s2.
  assert (Hdel : jobs (fst (deleteJob (toString (clk1 0%nat))
                                     (fst (addJob second clk2 (fst (addJob first clk1 s))))))
                 = filter (fun job => negb (String.eqb (Job.id job) (toString (clk1 0%nat))))
                          (jobs s)).
  { rewrite jobs_deleteJob, !jobs_addJob. simpl.
    rewrite <- Hclk, String.eqb_refl. reflexivity. }
  split; [unfold addJob; simpl; now rewrite Hclk|].
  split; [rewrite !jobs_addJob; simpl; now rewrite Hclk|].
  split.
  { unfold getJob. cbn [fst]. rewrite jobs_addJob, Hclk.
    exact (findJob_cons_same (jobOf second clk2) _). }
  split; [exact Hdel|].
  intros Hfresh. rewrite Hdel. apply filter_keeps_all.
  intros job Hin. apply negb_true_iff, String.eqb_neq. now apply Hfresh.
Qed.

Lemma addJob_same_instant_shares_id_witness :
  map Job.id (jobs (fst (addJob (NewJob.mk "A" "a" 1 "c" [] "user1" "Ana" None open)
                                Examples.noon
                                (fst (addJob (NewJob.mk "B" "b" 2 "c" [] "user1" "Ana" None open)
                                             Examples.noon Examples.seeded)))))
  = ["1700000000000"; "1700000000000"; "1"; "2"; "3"; "4"; "5"]
  /\ jobs (fst (deleteJob "1700000000000"
                  (fst (addJob (NewJob.mk "A" "a" 1 "c" [] "user1" "Ana" None open)
                               Examples.noon
                               (fst (addJob (NewJob.mk "B" "b" 2 "c" [] "user1" "Ana" None open)
                                            Examples.noon Examples.seeded))))))
     = jobs Examples.seeded.
Proof.
  split; [reflexivity|].
  destruct (addJob_same_instant_shares_id
              (NewJob.mk "B" "b" 2 "c" [] "user1" "Ana" None open)
              (NewJob.mk "A" "a" 1 "c" [] "user1" "Ana" None open)
              Examples.noon Examples.noon Examples.seeded eq_refl)
    as (_ & _ & _ & _ & Hfresh).
  apply Hfresh. intros job Hin. simpl in Hin.
  destruct Hin as [<-|[<-|[<-|[<-|[<-|[]]]]]]; discriminate.
Defined.

(** ** Loading from the API *)

Lemma formatJob_counts (raw : Remote.RawJob) :
  Job.likesCount (formatJob raw) = Z.of_nat (List.length (Job.likedBy (formatJob raw))).
Proof.
  unfold formatJob. simpl. destruct (Remote.likedBy raw); simpl;
    [now rewrite length_map | reflexivity].
Qed.

Lemma fetchJobs_ok (raw : list Remote.RawJob) (clk : Clock) (s : Store) :
  fetchJobs (Remote.OkJobs raw) clk s
  = setIsLoading false (afterJobsChange (setJobsTo (map formatJob raw) (setIsLoading true s))).
Proof. reflexivity. Qed.

(** X3: after a fetch that answers with a job array, the job list is that
    array in the same order with the same ids, every job's likesCount is
    the size of its likedBy (whatever the remote record said), a record
    without comments, likers or savers gets empty arrays and a counter of
    0, loading is over, the error flag is as before, and a non-empty list
    is mirrored into the cache. *)
Theorem fetchJobs_normalises_remote_jobs
    (raw : list Remote.RawJob) (clk : Clock) (s : Store) :
  let s' := fetchJobs (Remote.OkJobs raw) clk s in
  map Job.id (jobs s') = map Remote.id raw
  /\ Forall (fun job => Job.likesCount job = Z.of_nat (List.length (Job.likedBy job)))
            (jobs s')
  /\ (forall i r,
         nth_error raw i = Some r ->
         exists job,
           nth_error (jobs s') i = Some job
           /\ Job.comments job = match Remote.comments r with Some cs => cs | None => [] end
           /\ Job.likedBy job = match Remote.likedBy r with
                                | Some us => map Remote.liker_id us
                                | None => []
                                end
           /\ Job.savedBy job = match Remote.savedBy r with
                                | Some us => map Remote.liker_id us
                                | None => []
                                end
           /\ (Remote.likedBy r = None -> Job.likesCount job = 0))
  /\ isLoading s' = false
  /\ error s' = error s
  /\ (raw <> [] -> localStorage s' = Some (Snapshot (jobs s'))).
Proof.
  cbv zeta. rewrite fetchJobs_ok.
  assert (Hjobs : jobs (setIsLoading false
                          (afterJobsChange
                             (setJobsTo (map formatJob raw) (setIsLoading true s))))
                  = map formatJob raw).
  { cbn [jobs setIsLoading]. now rewrite jobs_afterJobsChange. }
  rewrite Hjobs. split; [|split; [|split; [|split; [|split]]]].
  - rewrite map_map. reflexivity.
  - apply Forall_map, Forall_forall. intros r _. apply formatJob_counts.
  - intros i r Hnth. exists (formatJob r).
    rewrite nth_error_map, Hnth. repeat split.
    intros Hnone. unfold formatJob. simpl. now rewrite Hnone.
  - reflexivity.
  - cbn [error setIsLoading]. now rewrite error_afterJobsChange.
  - intros Hne. cbn [localStorage setIsLoading]. rewrite localStorage_after.
    cbn [jobs setJobsTo]. destruct raw; [congruence | reflexivity].
Qed.

(** X4: a fetch that answers with an empty job array empties the job list
    and the saved view but leaves the cached snapshot as it was, since the
    persistence effect skips an empty list; a fetch whose body has no
    [jobs] changes neither the job list, the saved view nor the cache. *)
Theorem fetchJobs_empty_answers (clk : Clock) (s : Store) :
  (jobs (fetchJobs (Remote.OkJobs []) clk s) = []
   /\ savedJobs (fetchJobs (Remote.OkJobs []) clk s) = []
   /\ localStorage (fetchJobs (Remote.OkJobs []) clk s) = localStorage s)
  /\ (jobs (fetchJobs Remote.OkWithoutJobs clk s) = jobs s
      /\ savedJobs (fetchJobs Remote.OkWithoutJobs clk s) = savedJobs s
      /\ localStorage (fetchJobs Remote.OkWithoutJobs clk s) = localStorage s
      /\ error (fetchJobs Remote.OkWithoutJobs clk s) = error s
      /\ isLoading (fetchJobs Remote.OkWithoutJobs clk s) = false).
Proof.
  split; [|repeat split].
  rewrite fetchJobs_ok. unfold afterJobsChange, persistJobs, updateSavedJobs.
  destruct (currentUser s) eqn:E; simpl; rewrite ?E; repeat split.
Qed.

(** ** Loading from the cache *)

(** X5: when the fetch fails and the cache holds a snapshot, the job list
    becomes that snapshot, the cache still holds it and no error is
    flagged; when the cached text does not parse, the job list, the saved
    view and the cache stay as they were and the error flag is set to
    'No se pudieron cargar los trabajos'.  Loading is over either way. *)
Theorem fetchJobs_falls_back_to_cache
    (response : Remote.Response) (clk : Clock) (s : Store) :
  Remote.failed response = true ->
  (forall js, localStorage s = Some (Snapshot js) ->
              jobs (fetchJobs response clk s) = js
              /\ localStorage (fetchJobs response clk s) = Some (Snapshot js)
              /\ error (fetchJobs response clk s) = error s
              /\ isLoading (fetchJobs response clk s) = false)
  /\ (localStorage s = Some Corrupt ->
      jobs (fetchJobs response clk s) = jobs s
      /\ savedJobs (fetchJobs response clk s) = savedJobs s
      /\ localStorage (fetchJobs response clk s) = Some Corrupt
      /\ error (fetchJobs response clk s) = Some "No se pudieron cargar los trabajos"
      /\ isLoading (fetchJobs response clk s) = false).
Proof.
  intros Hfail.
  assert (Hfetch : fetchJobs response clk s
                   = setIsLoading false (loadFallback clk (setIsLoading true s))).
  { destruct response; try discriminate Hfail; reflexivity. }
  rewrite Hfetch. unfold loadFallback. cbn [localStorage setIsLoading]. split.
  - intros js Hcache. rewrite Hcache.
    cbn [jobs localStorage error isLoading setIsLoading].
    rewrite jobs_afterJobsChange, localStorage_after, error_afterJobsChange.
    cbn [jobs setJobsTo localStorage error setIsLoading].
    repeat split. destruct js; [exact Hcache | reflexivity].
  - intros Hcache. rewrite Hcache. repeat split. exact Hcache.
Qed.

Lemma fetchJobs_falls_back_to_cache_witness :
  map Job.id
      (jobs (fetchJobs Remote.NotOk Examples.noon
               (initial None (Some (Snapshot (jobs Examples.likedByBoth))))))
  = ["1"; "2"; "3"; "4"; "5"]
  /\ error (fetchJobs Remote.NetworkError Examples.noon (initial None (Some Corrupt)))
     = Some "No se pudieron cargar los trabajos".
Proof.
  split.
  - destruct (proj1 (fetchJobs_falls_back_to_cache Remote.NotOk Examples.noon
                       (initial None (Some (Snapshot (jobs Examples.likedByBoth))))
                       eq_refl)
                    (jobs Examples.likedByBoth) eq_refl) as (Hjobs & _).
    rewrite Hjobs. reflexivity.
  - destruct (proj2 (fetchJobs_falls_back_to_cache Remote.NetworkError Examples.noon
                       (initial None (Some Corrupt)) eq_refl) eq_refl)
      as (_ & _ & _ & Herr & _).
    exact Herr.
Defined.

(** ** The cache as a mirror of the job list *)

Lemma Mirrored_after (s : Store) : Mirrored (afterJobsChange s).
Proof.
  unfold Mirrored. rewrite jobs_afterJobsChange, localStorage_after.
  destruct (jobs s); [congruence | reflexivity].
Qed.

Lemma Mirrored_same (s s' : Store) :
  jobs s' = jobs s -> localStorage s' = localStorage s -> Mirrored s -> Mirrored s'.
Proof. unfold Mirrored. intros -> ->. trivial. Qed.

Lemma Mirrored_fetchJobs (response : Remote.Response) (clk : Clock) (s : Store) :
  Mirrored s -> Mirrored (fetchJobs response clk s).
Proof.
  intros Hm. unfold fetchJobs.
  apply (Mirrored_same _ (setIsLoading false _) eq_refl eq_refl).
  destruct response; try apply Mirrored_after;
    try (exact (Mirrored_same s _ eq_refl eq_refl Hm)).
  all: unfold loadFallback; cbn [localStorage setIsLoading];
    destruct (localStorage s) as [[js|]|] eqn:E; try apply Mirrored_after;
    exact (Mirrored_same s _ eq_refl eq_refl Hm).
Qed.

Lemma Mirrored_step (a : Action) (s : Store) : Mirrored s -> Mirrored (step a s).
Proof.
  intros Hm. destruct a as [newJob clk | jobId updates | jobId
                           | jobId content user clk | jobId commentId content user clk
                           | jobId | jobId | response clk | user]; simpl.
  - apply Mirrored_after.
  - apply Mirrored_after.
  - apply Mirrored_after.
  - unfold addCommentToJob. destruct user; simpl;
      [apply Mirrored_after | exact (Mirrored_same s _ eq_refl eq_refl Hm)].
  - unfold addReplyToComment. destruct user; simpl;
      [apply Mirrored_after | exact (Mirrored_same s _ eq_refl eq_refl Hm)].
  - unfold toggleJobLike. destruct (currentUser s); simpl;
      [apply Mirrored_after | exact (Mirrored_same s _ eq_refl eq_refl Hm)].
  - unfold toggleSaveJob. destruct (currentUser s); simpl;
      [apply Mirrored_after | exact (Mirrored_same s _ eq_refl eq_refl Hm)].
  - now apply Mirrored_fetchJobs.
  - apply (Mirrored_same s); [apply jobs_authChange | | exact Hm].
    unfold authChange, updateSavedJobs. simpl. now destruct user.
Qed.

Lemma Mirrored_reachable (s : Store) : Reachable s -> Mirrored s.
Proof.
  induction 1 as [user cache response clk | a s _ IH].
  - unfold mount. apply Mirrored_fetchJobs.
    unfold Mirrored, updateSavedJobs. simpl. destruct user; simpl; congruence.
  - now apply Mirrored_step.
Qed.

(** X6: in every store the provider can reach, a non-empty job list is
    exactly what the cache holds: every change of the list is written
    through. *)
Theorem cache_mirrors_jobs (s : Store) :
  Reachable s -> jobs s <> [] -> localStorage s = Some (Snapshot (jobs s)).
Proof. apply Mirrored_reachable. Qed.

Lemma cache_mirrors_jobs_witness :
  Reachable Examples.likedByBoth
  /\ localStorage Examples.likedByBoth = Some (Snapshot (jobs Examples.likedByBoth)).
Proof.
  assert (H : Reachable Examples.likedByBoth)
    by (apply run_reachable, reach_mount).
  split; [exact H|].
  apply (cache_mirrors_jobs Examples.likedByBoth H). discriminate.
Defined.

Lemma jobs_fetchJobs_snapshot
    (response : Remote.Response) (clk : Clock) (s : Store) (js : list Job.JobType) :
  Remote.failed response = true ->
  localStorage s = Some (Snapshot js) ->
  jobs (fetchJobs response clk s) = js.
Proof.
  intros Hfail Hcache.
  assert (Hfetch : fetchJobs response clk s
                   = setIsLoading false (loadFallback clk (setIsLoading true s))).
  { destruct response; try discriminate Hfail; reflexivity. }
  rewrite Hfetch. unfold loadFallback. cbn [localStorage setIsLoading jobs].
  rewrite Hcache. now rewrite jobs_afterJobsChange.
Qed.

(** X7: what the provider holds survives a reload while the API is down:
    from a reachable store with a non-empty job list, a refresh whose
    fetch fails leaves the job list as it is, and a provider mounted anew
    on the same local storage, by any user, starts with that job list. *)
Theorem jobs_survive_reload
    (response : Remote.Response) (clk : Clock) (s : Store) (user : option User.UserType) :
  Reachable s ->
  jobs s <> [] ->
  Remote.failed response = true ->
  jobs (refreshJobs response clk s) = jobs s
  /\ jobs (mount user (localStorage s) response clk) = jobs s.
Proof.
  intros Hreach Hne Hfail.
  pose proof (Mirrored_reachable s Hreach Hne) as Hcache. split.
  - now apply jobs_fetchJobs_snapshot.
  - unfold mount. apply jobs_fetchJobs_snapshot; [assumption|].
    unfold updateSavedJobs. simpl. now destruct user.
Qed.

Lemma jobs_survive_reload_witness :
  option_map Job.likedBy
    (findJob "2" (jobs (mount (Some Examples.userV) (localStorage Examples.likedByBoth)
                              Remote.NetworkError Examples.noon)))
  = Some ["U"; "V"].
Proof.
  assert (Hreach : Reachable Examples.likedByBoth)
    by (apply run_reachable, reach_mount).
  assert (Hne : jobs Examples.likedByBoth <> []) by discriminate.
  destruct (jobs_survive_reload Remote.NetworkError Examples.noon Examples.likedByBoth
              (Some Examples.userV) Hreach Hne eq_refl)
    as (_ & Hmount).
  rewrite Hmount. reflexivity.
Defined.




(** ** Looking a job up after an operation *)

Lemma findJob_map (f : Job.JobType -> Job.JobType) (jobId : string)
    (js : list Job.JobType) :
  (forall job, Job.id (f job) = Job.id job) ->
  findJob jobId (map f js) = option_map f (findJob jobId js).
Proof.
  intros Hid. unfold findJob. induction js as [|job js IH]; [reflexivity|].
  simpl. rewrite Hid. destruct (String.eqb (Job.id job) jobId); [reflexivity | exact IH].
Qed.

Lemma findJob_filter_other (jobId other : string) (js : list Job.JobType) :
  findJob other (filter (fun job => negb (String.eqb (Job.id job) jobId)) js)
  = if String.eqb other jobId then None else findJob other js.
Proof.
  unfold findJob. induction js as [|job js IH]; simpl.
  - now destruct (String.eqb other jobId).
  - destruct (String.eqb_spec (Job.id job) jobId) as [Hj|Hj]; simpl.
    + rewrite IH. destruct (String.eqb_spec other jobId) as [Ho|Ho]; [reflexivity|].
      destruct (String.eqb_spec (Job.id job) other) as [Hjo|_]; [congruence | reflexivity].
    + destruct (String.eqb_spec (Job.id job) other) as [Hjo|Hjo].
      * subst other. apply String.eqb_neq in Hj. now rewrite Hj.
      * exact IH.
Qed.

Lemma saveToggled_id (uid jobId : string) (job : Job.JobType) :
  Job.id (saveToggled uid jobId job) = Job.id job.
Proof. destruct (saveToggled_frame uid jobId job) as (H & _). exact H. Qed.

Lemma likeToggled_keeps_id (uid jobId : string) (job : Job.JobType) :
  Job.id (likeToggled uid jobId job) = Job.id job.
Proof. destruct (likeToggled_frame uid jobId job) as (H & _). exact H. Qed.

(** X9: getJob after an operation is the operation's job update applied
    to what getJob found before, for every id asked for: after
    toggleJobLike and toggleSaveJob by an authenticated user and after
    addCommentToJob with a user, a job is found exactly when it was found
    before; after deleteJob the deleted id is not found and every other
    id finds the job it found before; after addJob the returned id finds
    the new job and every other id finds the job it found before. *)
Theorem getJob_after_operations (s : Store) (jobId lookedUp : string) :
  (forall u, currentUser s = Some u ->
     fst (getJob lookedUp (fst (toggleJobLike jobId s)))
       = option_map (likeToggled (User.id u) jobId) (fst (getJob lookedUp s))
     /\ fst (getJob lookedUp (fst (toggleSaveJob jobId s)))
        = option_map (saveToggled (User.id u) jobId) (fst (getJob lookedUp s)))
  /\ (forall content u clk,
        fst (getJob lookedUp (fst (addCommentToJob jobId content (Some u) clk s)))
        = option_map
            (fun job =>
               if String.eqb (Job.id job) jobId
               then Job.with_comments job (newCommentOf content u clk :: Job.comments job)
               else job)
            (fst (getJob lookedUp s)))
  /\ fst (getJob lookedUp (fst (deleteJob jobId s)))
     = (if String.eqb lookedUp jobId then None else fst (getJob lookedUp s))
  /\ (forall newJob clk,
        fst (getJob lookedUp (fst (addJob newJob clk s)))
        = if String.eqb (toString (clk 0%nat)) lookedUp
          then Some (jobOf newJob clk)
          else fst (getJob lookedUp s)).
Proof.
  unfold getJob. cbn [fst]. split; [|split; [|split]].
  - intros u Hu. rewrite jobs_toggleJobLike, jobs_toggleSaveJob, Hu. split.
    + apply findJob_map. intros job. apply likeToggled_keeps_id.
    + apply findJob_map. intros job. apply saveToggled_id.
  - intros content u clk. rewrite jobs_addCommentToJob.
    apply findJob_map. intros job. now destruct (String.eqb (Job.id job) jobId).
  - rewrite jobs_deleteJob. apply findJob_filter_other.
  - intros newJob clk. rewrite jobs_addJob. reflexivity.
Qed.

Lemma getJob_after_operations_witness :
  option_map Job.likedBy (fst (getJob "2" (fst (toggleJobLike "2" Examples.seeded))))
  = Some ["U"]
  /\ option_map Job.likedBy (fst (getJob "3" (fst (toggleJobLike "2" Examples.seeded))))
     = Some [].
Proof.
  split.
  - rewrite (proj1 (proj1 (getJob_after_operations Examples.seeded "2" "2")
                          Examples.userU eq_refl)).
    reflexivity.
  - rewrite (proj1 (proj1 (getJob_after_operations Examples.seeded "2" "3")
                          Examples.userU eq_refl)).
    reflexivity.
Defined.

(** ** The membership queries after a toggle *)

Lemma includes_likeToggled (uid jobId : string) (job : Job.JobType) :
  Job.id job = jobId ->
  includes (Job.likedBy (likeToggled uid jobId job)) uid
  = negb (includes (Job.likedBy job) uid).
Proof.
  intros Hid. apply String.eqb_eq in Hid. unfold likeToggled. rewrite Hid.
  destruct (includes (Job.likedBy job) uid) eqn:Hinc; simpl;
    [apply includes_without | apply includes_snoc].
Qed.

Lemma includes_saveToggled (uid jobId : string) (job : Job.JobType) :
  Job.id job = jobId ->
  includes (Job.savedBy (saveToggled uid jobId job)) uid
  = negb (includes (Job.savedBy job) uid).
Proof.
  intros Hid. apply String.eqb_eq in Hid. unfold saveToggled. rewrite Hid.
  destruct (includes (Job.savedBy job) uid) eqn:Hinc; simpl;
    [apply includes_without | apply includes_snoc].
Qed.

Lemma findJob_id (jobId : string) (js : list Job.JobType) (job : Job.JobType) :
  findJob jobId js = Some job -> Job.id job = jobId.
Proof.
  unfold findJob. intros Hfind. apply find_some in Hfind as [_ Heq].
  now apply String.eqb_eq.
Qed.

Lemma queries_flip
    (jobId : string) (s : Store) (u : User.UserType) (job : Job.JobType) :
  currentUser s = Some u ->
  fst (getJob jobId s) = Some job ->
  isJobLikedByCurrentUser jobId (fst (toggleJobLike jobId s))
    = negb (isJobLikedByCurrentUser jobId s)
  /\ isJobSavedByCurrentUser jobId (fst (toggleSaveJob jobId s))
     = negb (isJobSavedByCurrentUser jobId s).
Proof.
  unfold getJob. cbn [fst]. intros Hu Hfind.
  pose proof (findJob_id _ _ _ Hfind) as Hid.
  unfold isJobLikedByCurrentUser, isJobSavedByCurrentUser.
  rewrite currentUser_toggleJobLike, currentUser_toggleSaveJob, Hu.
  rewrite jobs_toggleJobLike, jobs_toggleSaveJob, Hu.
  rewrite (findJob_map _ _ _ (likeToggled_keeps_id (User.id u) jobId)).
  rewrite (findJob_map _ _ _ (saveToggled_id (User.id u) jobId)).
  rewrite Hfind. cbn [option_map].
  now rewrite (includes_likeToggled _ _ _ Hid), (includes_saveToggled _ _ _ Hid).
Qed.

(** X10: for an authenticated user and a job id that getJob finds,
    toggleJobLike flips isJobLikedByCurrentUser and leaves
    isJobSavedByCurrentUser alone, toggleSaveJob flips
    isJobSavedByCurrentUser and leaves isJobLikedByCurrentUser and
    getLikesCount alone, and getLikesCount after toggleJobLike is one more
    when the user had not liked the job and one less, but not below 0,
    when the user had. *)
Theorem toggles_flip_the_queries
    (jobId : string) (s : Store) (u : User.UserType) (job : Job.JobType) :
  currentUser s = Some u ->
  fst (getJob jobId s) = Some job ->
  isJobLikedByCurrentUser jobId (fst (toggleJobLike jobId s))
    = negb (isJobLikedByCurrentUser jobId s)
  /\ isJobSavedByCurrentUser jobId (fst (toggleJobLike jobId s))
     = isJobSavedByCurrentUser jobId s
  /\ getLikesCount jobId (fst (toggleJobLike jobId s))
     = (if isJobLikedByCurrentUser jobId s
        then Z.max 0 (getLikesCount jobId s - 1)
        else getLikesCount jobId s + 1)
  /\ isJobSavedByCurrentUser jobId (fst (toggleSaveJob jobId s))
     = negb (isJobSavedByCurrentUser jobId s)
  /\ isJobLikedByCurrentUser jobId (fst (toggleSaveJob jobId s))
     = isJobLikedByCurrentUser jobId s
  /\ getLikesCount jobId (fst (toggleSaveJob jobId s)) = getLikesCount jobId s.
Proof.
  unfold getJob. cbn [fst]. intros Hu Hfind.
  pose proof (findJob_id _ _ _ Hfind) as Hid.
  unfold isJobLikedByCurrentUser, isJobSavedByCurrentUser, getLikesCount.
  rewrite currentUser_toggleJobLike, currentUser_toggleSaveJob, Hu.
  rewrite jobs_toggleJobLike, jobs_toggleSaveJob, Hu.
  rewrite (findJob_map _ _ _ (likeToggled_keeps_id (User.id u) jobId)).
  rewrite (findJob_map _ _ _ (saveToggled_id (User.id u) jobId)).
  rewrite Hfind. cbn [option_map].
  destruct (likeToggled_frame (User.id u) jobId job)
    as (_ & _ & _ & _ & _ & _ & _ & _ & _ & _ & _ & _ & HsavedL).
  destruct (saveToggled_frame (User.id u) jobId job)
    as (_ & _ & _ & _ & _ & _ & _ & _ & _ & _ & _ & _ & HlikedS & HcountS).
  rewrite HsavedL, HlikedS, HcountS.
  rewrite (includes_likeToggled _ _ _ Hid), (includes_saveToggled _ _ _ Hid).
  repeat split.
  apply String.eqb_eq in Hid. unfold likeToggled. rewrite Hid.
  now destruct (includes (Job.likedBy job) (User.id u)).
Qed.

Lemma toggles_flip_the_queries_witness :
  isJobLikedByCurrentUser "2" Examples.likedByBoth = true
  /\ isJobLikedByCurrentUser "2" (fst (toggleJobLike "2" Examples.likedByBoth)) = false
  /\ getLikesCount "2" (fst (toggleJobLike "2" Examples.likedByBoth)) = 1.
Proof.
  split; [reflexivity|].
  destruct (toggles_flip_the_queries "2" Examples.likedByBoth Examples.userU
              (nth 1 (jobs Examples.likedByBoth) Examples.noJob) eq_refl eq_refl)
    as (Hliked & _ & Hcount & _).
  split; [rewrite Hliked | rewrite Hcount]; reflexivity.
Defined.

(** ** Other users' likes and saves *)

Lemma includes_app (xs ys : list string) (x : string) :
  includes (xs ++ ys) x = includes xs x || includes ys x.
Proof. unfold includes. apply existsb_app. Qed.

Lemma includes_without_other (xs : list string) (x y : string) :
  y <> x -> includes (without xs x) y = includes xs y.
Proof.
  intros Hne. destruct (includes xs y) eqn:Hinc.
  - apply includes_true_iff. apply in_without.
    split; [now apply includes_true_iff | assumption].
  - apply includes_false_iff. rewrite in_without.
    apply includes_false_iff in Hinc. tauto.
Qed.

Lemma includes_snoc_other (xs : list string) (x y : string) :
  y <> x -> includes (xs ++ [x]) y = includes xs y.
Proof.
  intros Hne. rewrite includes_app. unfold includes at 2. simpl.
  apply not_eq_sym in Hne. apply String.eqb_neq in Hne. rewrite Hne.
  now rewrite !orb_false_r.
Qed.

(** X11: a toggle by one user never changes whether another user has
    liked or saved a job: for every job of the store and every id other
    than the acting user's, membership of that id in likedBy is the same
    before and after toggleJobLike, and membership in savedBy the same
    before and after toggleSaveJob. *)
Theorem toggles_leave_other_users_alone
    (jobId other : string) (s : Store) (u : User.UserType) (i : nat) (job : Job.JobType) :
  currentUser s = Some u ->
  other <> User.id u ->
  nth_error (jobs s) i = Some job ->
  (exists job',
      nth_error (jobs (fst (toggleJobLike jobId s))) i = Some job'
      /\ includes (Job.likedBy job') other = includes (Job.likedBy job) other)
  /\ (exists job',
        nth_error (jobs (fst (toggleSaveJob jobId s))) i = Some job'
        /\ includes (Job.savedBy job') other = includes (Job.savedBy job) other).
Proof.
  intros Hu Hne Hnth.
  rewrite jobs_toggleJobLike, jobs_toggleSaveJob, Hu, !nth_error_map, Hnth.
  cbn [option_map]. split; eexists; (split; [reflexivity|]).
  - unfold likeToggled. destruct (String.eqb (Job.id job) jobId); [|reflexivity].
    destruct (includes (Job.likedBy job) (User.id u)); simpl;
      [now apply includes_without_other | now apply includes_snoc_other].
  - unfold saveToggled. destruct (String.eqb (Job.id job) jobId); [|reflexivity].
    destruct (includes (Job.savedBy job) (User.id u)); simpl;
      [now apply includes_without_other | now apply includes_snoc_other].
Qed.

Lemma toggles_leave_other_users_alone_witness :
  exists job',
    nth_error (jobs (fst (toggleJobLike "2" Examples.likedByBoth))) 1 = Some job'
    /\ includes (Job.likedBy job') "V" = true.
Proof.
  destruct (toggles_leave_other_users_alone "2" "V" Examples.likedByBoth Examples.userU
              1%nat (nth 1 (jobs Examples.likedByBoth) Examples.noJob) eq_refl)
    as ((job' & Hnth & Hinc) & _); [discriminate | reflexivity |].
  exists job'. split; [exact Hnth|]. rewrite Hinc. reflexivity.
Defined.

(** ** The invariant under the other operations *)

Lemma saveToggled_invariant (uid jobId : string) (job : Job.JobType) :
  JobInvariant job -> JobInvariant (saveToggled uid jobId job).
Proof.
  intros (Hcount & Hliked & Hsaved). unfold saveToggled.
  destruct (String.eqb (Job.id job) jobId); [|now repeat split].
  destruct (includes (Job.savedBy job) uid) eqn:Hinc; unfold JobInvariant; simpl.
  - repeat split; [assumption | assumption | now apply NoDup_without].
  - apply includes_false_iff in Hinc.
    repeat split; [assumption | assumption | now apply NoDup_snoc].
Qed.

Lemma Forall_map_same {A : Type} (P : A -> Prop) (f : A -> A) (l : list A) :
  (forall x, P x -> P (f x)) -> Forall P l -> Forall P (map f l).
Proof.
  intros Hf Hl. apply Forall_map. eapply Forall_impl; [|exact Hl]. exact Hf.
Qed.

Lemma seed_invariant (clk : Clock) : Forall JobInvariant (getMockJobs clk).
Proof.
  unfold getMockJobs.
  repeat (constructor; [unfold JobInvariant; simpl; repeat split; constructor|]).
  constructor.
Qed.

Lemma step_invariant (a : Action) (s : Store) :
  editsSocialStateInPlace a = true ->
  Forall JobInvariant (jobs s) -> Forall JobInvariant (jobs (step a s)).
Proof.
  intros Ha Hinv.
  destruct a as [newJob clk | jobId updates | jobId
                | jobId content user clk | jobId commentId content user clk
                | jobId | jobId | response clk | user];
    try discriminate Ha; cbn [step].
  - rewrite jobs_addJob. constructor; [|assumption].
    unfold JobInvariant. simpl. repeat split; constructor.
  - rewrite jobs_deleteJob. apply Forall_forall. intros job Hin.
    apply filter_In in Hin as [Hin _].
    now apply (proj1 (Forall_forall _ _) Hinv).
  - destruct user as [u|]; [|exact Hinv].
    rewrite jobs_addCommentToJob. apply Forall_map_same; [|assumption].
    intros job Hjob. now destruct (String.eqb (Job.id job) jobId).
  - destruct user as [u|]; [|exact Hinv].
    rewrite jobs_addReplyToComment. apply Forall_map_same; [|assumption].
    intros job Hjob. now destruct (String.eqb (Job.id job) jobId).
  - rewrite jobs_toggleJobLike. destruct (currentUser s); [|assumption].
    apply Forall_map_same; [|assumption]. intros job. apply likeToggled_invariant.
  - rewrite jobs_toggleSaveJob. destruct (currentUser s); [|assumption].
    apply Forall_map_same; [|assumption]. intros job. apply saveToggled_invariant.
  - now rewrite jobs_authChange.
Qed.

Lemma jobs_mount_seed (user : option User.UserType) (clk : Clock) :
  jobs (mount user None Remote.NetworkError clk) = getMockJobs clk.
Proof.
  destruct user; reflexivity.
Qed.

(** X12: the invariant (likesCount is the size of likedBy; likedBy and
    savedBy hold no id twice) is kept by every action other than
    updateJob and a refresh: by addJob, deleteJob, addCommentToJob,
    addReplyToComment, toggleJobLike, toggleSaveJob and a change of the
    acting user, in any order and number; and the seed data satisfies
    it, so every store reached from the seed data by such actions does. *)
Theorem invariant_kept_by_in_place_actions (actions : list Action) :
  forallb editsSocialStateInPlace actions = true ->
  (forall s, Forall JobInvariant (jobs s) -> Forall JobInvariant (jobs (run actions s)))
  /\ (forall user clk,
         Forall JobInvariant (jobs (run actions (mount user None Remote.NetworkError clk)))).
Proof.
  intros Hall.
  assert (Hrun : forall s, Forall JobInvariant (jobs s) ->
                           Forall JobInvariant (jobs (run actions s))).
  { induction actions as [|a actions IH]; intros s Hinv; [assumption|].
    simpl in Hall. apply andb_prop in Hall as [Ha Hrest].
    simpl. apply (IH Hrest). now apply step_invariant. }
  split; [exact Hrun|].
  intros user clk. apply Hrun.
  rewrite jobs_mount_seed. apply seed_invariant.
Qed.

Lemma invariant_kept_by_in_place_actions_witness :
  Forall JobInvariant
    (jobs (run [ToggleJobLike "2"; ToggleSaveJob "2"; AuthChange (Some Examples.userV);
                ToggleJobLike "2"; DeleteJob "3";
                AddCommentToJob "1" "Hola" (Some Examples.userV) Examples.noon]
               (mount (Some Examples.userU) None Remote.NetworkError Examples.noon))).
Proof.
  exact (proj2 (invariant_kept_by_in_place_actions
                  [ToggleJobLike "2"; ToggleSaveJob "2"; AuthChange (Some Examples.userV);
                   ToggleJobLike "2"; DeleteJob "3";
                   AddCommentToJob "1" "Hola" (Some Examples.userV) Examples.noon]
                  eq_refl)
               (Some Examples.userU) Examples.noon).
Defined.

(** ** Updating a job *)

Lemma override_twice {A : Type} (old : A) (new : option A) :
  override (override old new) new = override old new.
Proof. now destruct new. Qed.

Lemma spread_twice (job : Job.JobType) (updates : Partial.PartialJobType) :
  spread (spread job updates) updates = spread job updates.
Proof. unfold spread. simpl. now rewrite !override_twice. Qed.

Lemma spread_empty (job : Job.JobType) : spread job Partial.empty = job.
Proof. now destruct job. Qed.

(** X13: updateJob is idempotent on the job list, also when the partial
    carries a new id; updateJob with the empty partial leaves the job
    list as it is; and on a job with the given id updateJob replaces each
    of the fifteen fields the partial carries and keeps each field it
    does not carry, while every job with another id is left as it is. *)
Theorem updateJob_merges_and_is_idempotent
    (jobId : string) (updates : Partial.PartialJobType) (s : Store) :
  jobs (fst (updateJob jobId updates (fst (updateJob jobId updates s))))
  = jobs (fst (updateJob jobId updates s))
  /\ jobs (fst (updateJob jobId Partial.empty s)) = jobs s
  /\ (forall i job,
         nth_error (jobs s) i = Some job ->
         Job.id job = jobId ->
         exists job',
           nth_error (jobs (fst (updateJob jobId updates s))) i = Some job'
           /\ Job.id job' = override (Job.id job) (Partial.id updates)
           /\ Job.title job' = override (Job.title job) (Partial.title updates)
           /\ Job.description job' = override (Job.description job) (Partial.description updates)
           /\ Job.budget job' = override (Job.budget job) (Partial.budget updates)
           /\ Job.category job' = override (Job.category job) (Partial.category updates)
           /\ Job.skills job' = override (Job.skills job) (Partial.skills updates)
           /\ Job.userId job' = override (Job.userId job) (Partial.userId updates)
           /\ Job.userName job' = override (Job.userName job) (Partial.userName updates)
           /\ Job.userPhoto job' = override (Job.userPhoto job) (Partial.userPhoto updates)
           /\ Job.status job' = override (Job.status job) (Partial.status updates)
           /\ Job.timestamp job' = override (Job.timestamp job) (Partial.timestamp updates)
           /\ Job.comments job' = override (Job.comments job) (Partial.comments updates)
           /\ Job.likedBy job' = override (Job.likedBy job) (Partial.likedBy updates)
           /\ Job.likesCount job' = override (Job.likesCount job) (Partial.likesCount updates)
           /\ Job.savedBy job' = override (Job.savedBy job) (Partial.savedBy updates))
  /\ (forall i job,
         nth_error (jobs s) i = Some job ->
         Job.id job <> jobId ->
         nth_error (jobs (fst (updateJob jobId updates s))) i = Some job).
Proof.
  split; [|split; [|split]].
  - rewrite !jobs_updateJob, map_map. apply map_ext. intros job.
    destruct (String.eqb (Job.id job) jobId) eqn:Hid.
    + destruct (String.eqb (Job.id (spread job updates)) jobId);
        [apply spread_twice | reflexivity].
    + now rewrite Hid.
  - rewrite jobs_updateJob. apply map_unchanged. intros job _.
    destruct (String.eqb (Job.id job) jobId); [apply spread_empty | reflexivity].
  - intros i job Hnth Hid. apply String.eqb_eq in Hid.
    rewrite jobs_updateJob, nth_error_map, Hnth. cbn [option_map]. rewrite Hid.
    eexists. split; [reflexivity|]. repeat split.
  - intros i job Hnth Hid. apply String.eqb_neq in Hid.
    rewrite jobs_updateJob, nth_error_map, Hnth. cbn [option_map]. now rewrite Hid.
Qed.

(** ** The error flag and the notifications *)

Lemma error_fetchJobs (response : Remote.Response) (clk : Clock) (s : Store) :
  error (fetchJobs response clk s) = error s
  \/ exists e, error (fetchJobs response clk s) = Some e.
Proof.
  unfold fetchJobs. cbn [error setIsLoading].
  destruct response; try (left; now rewrite ?error_afterJobsChange).
  all: unfold loadFallback; cbn [localStorage setIsLoading];
    destruct (localStorage s) as [[js|]|];
    try (left; now rewrite error_afterJobsChange);
    right; eexists; reflexivity.
Qed.

Lemma error_step (a : Action) (s : Store) :
  error (step a s) = error s \/ exists e, error (step a s) = Some e.
Proof.
  destruct a as [newJob clk | jobId updates | jobId
                | jobId content user clk | jobId commentId content user clk
                | jobId | jobId | response clk | user]; cbn [step].
  - left. unfold addJob. cbn [fst]. now rewrite error_afterJobsChange.
  - left. unfold updateJob. cbn [fst]. now rewrite error_afterJobsChange.
  - left. unfold deleteJob. cbn [fst]. now rewrite error_afterJobsChange.
  - unfold addCommentToJob. destruct user; cbn [fst];
      [left; now rewrite error_afterJobsChange | right; eexists; reflexivity].
  - unfold addReplyToComment. destruct user; cbn [fst];
      [left; now rewrite error_afterJobsChange | right; eexists; reflexivity].
  - left. unfold toggleJobLike. destruct (currentUser s); cbn [fst];
      [now rewrite error_afterJobsChange | reflexivity].
  - left. unfold toggleSaveJob. destruct (currentUser s) eqn:E; cbn [fst];
      [|reflexivity].
    rewrite error_afterJobsChange. unfold updateSavedJobsFrom. simpl.
    now rewrite E.
  - apply error_fetchJobs.
  - left. unfold authChange, updateSavedJobs. simpl. now destruct user.
Qed.

(** X14: no action clears the error flag: once it is set it stays set
    through every later operation, change of user and refresh, a refresh
    that succeeds included. *)
Theorem error_flag_is_never_cleared (actions : list Action) (s : Store) (e : string) :
  error s = Some e -> exists e', error (run actions s) = Some e'.
Proof.
  revert s e. induction actions as [|a actions IH]; intros s e He; simpl.
  - now exists e.
  - destruct (error_step a s) as [Hsame | [e' He']].
    + apply (IH _ e). now rewrite Hsame.
    + now apply (IH _ e').
Qed.

Lemma error_flag_is_never_cleared_witness :
  exists e',
    error (run [RefreshJobs (Remote.OkJobs [Examples.rawLikedTwice]) Examples.noon;
                ToggleJobLike "7"]
               (fetchJobs Remote.NetworkError Examples.noon
                          (initial (Some Examples.userU) (Some Corrupt))))
    = Some e'.
Proof.
  apply (error_flag_is_never_cleared _ _ "No se pudieron cargar los trabajos").
  reflexivity.
Defined.

Lemma updateJob_merges_and_is_idempotent_witness :
  (exists job',
      nth_error (jobs (fst (updateJob "2" Examples.onlyLikedByU Examples.seeded))) 1 = Some job'
      /\ Job.likedBy job' = ["U"] /\ Job.likesCount job' = 0 /\ Job.savedBy job' = []
      /\ Job.userId job' = "user3")
  /\ option_map Job.id
       (nth_error (jobs (fst (updateJob "2" Examples.onlyLikedByU Examples.seeded))) 0)
     = Some "1".
Proof.
  split.
  - destruct (proj1 (proj2 (proj2 (updateJob_merges_and_is_idempotent "2"
                                     Examples.onlyLikedByU Examples.seeded)))
                    1%nat (nth 1 (getMockJobs Examples.noon) Examples.noJob)
                    eq_refl eq_refl)
      as (job' & Hnth & _ & _ & _ & _ & _ & _ & Huser & _ & _ & _ & _ & _
          & Hliked & Hcount & Hsaved).
    exists job'. split; [exact Hnth|]. rewrite Hliked, Hcount, Hsaved, Huser.
    repeat split.
  - rewrite (proj2 (proj2 (proj2 (updateJob_merges_and_is_idempotent "2"
                                    Examples.onlyLikedByU Examples.seeded)))
                   0%nat (nth 0 (getMockJobs Examples.noon) Examples.noJob) eq_refl).
    + reflexivity.
    + discriminate.
Defined.

Lemma toasts_fetchJobs (response : Remote.Response) (clk : Clock) (s : Store) :
  toasts (fetchJobs response clk s) = toasts s.
Proof.
  unfold fetchJobs. cbn [toasts setIsLoading].
  destruct response; try (now rewrite ?toasts_afterJobsChange).
  all: unfold loadFallback; cbn [localStorage setIsLoading];
    destruct (localStorage s) as [[js|]|];
    now rewrite ?toasts_afterJobsChange.
Qed.

Lemma toasts_updateSavedJobsFrom (stale : list Job.JobType) (s : Store) :
  toasts (updateSavedJobsFrom stale s) = toasts s.
Proof. unfold updateSavedJobsFrom. now destruct (currentUser s). Qed.

Lemma toasts_toggleSaveJob_user (jobId : string) (s : Store) (u : User.UserType) :
  currentUser s = Some u ->
  toasts (fst (toggleSaveJob jobId s))
  = toasts s
    ++ [mkToast default
          (if isJobSavedByCurrentUser jobId s
           then "Propuesta eliminada" else "Propuesta guardada")
          (if isJobSavedByCurrentUser jobId s
           then "Has eliminado esta propuesta de tus guardados"
           else "Has guardado esta propuesta")].
Proof.
  intros Hu. unfold toggleSaveJob. rewrite Hu. cbn [fst].
  rewrite toasts_afterJobsChange. cbn [toasts toast].
  now rewrite toasts_updateSavedJobsFrom.
Qed.

(** X15: each operation of the store (addJob, updateJob, deleteJob,
    addCommentToJob, addReplyToComment, toggleJobLike, toggleSaveJob)
    either returns normally and appends exactly one notification, or
    throws and then appends none, sets the error flag and leaves the job
    list alone.  It throws exactly when addCommentToJob or
    addReplyToComment is handed no user object.  The notification is the
    destructive one only when no user is authenticated, and then the job
    list is as before.  A refresh and a change of user never throw and
    never notify. *)
Theorem operations_notify_once (a : Action) (s : Store) :
  (isOperation a = true ->
   (throws a s = false
    /\ exists t,
         toasts (step a s) = toasts s ++ [t]
         /\ (variant t = destructive -> currentUser s = None /\ jobs (step a s) = jobs s))
   \/ (throws a s = true
       /\ toasts (step a s) = toasts s
       /\ jobs (step a s) = jobs s
       /\ exists e, error (step a s) = Some e))
  /\ throws a s = lacksAuthor a
  /\ (isOperation a = false -> throws a s = false /\ toasts (step a s) = toasts s).
Proof.
  destruct a as [newJob clk | jobId updates | jobId
                | jobId content user clk | jobId commentId content user clk
                | jobId | jobId | response clk | user]; cbn [step isOperation];
    (split; [intros Hop; try discriminate Hop
            | split; [| intros Hop; try discriminate Hop]]).
  - left. split; [reflexivity|]. unfold addJob. cbn [fst].
    rewrite toasts_afterJobsChange. eexists. split; [reflexivity | discriminate].
  - reflexivity.
  - left. split; [reflexivity|]. unfold updateJob. cbn [fst].
    rewrite toasts_afterJobsChange. eexists. split; [reflexivity | discriminate].
  - reflexivity.
  - left. split; [reflexivity|]. unfold deleteJob. cbn [fst].
    rewrite toasts_afterJobsChange. eexists. split; [reflexivity | discriminate].
  - reflexivity.
  - unfold throws, addCommentToJob. destruct user; cbn [fst snd isThrown].
    + left. split; [reflexivity|]. rewrite toasts_afterJobsChange.
      eexists. split; [reflexivity | discriminate].
    + right. repeat split. eexists. reflexivity.
  - unfold throws, addCommentToJob. now destruct user.
  - unfold throws, addReplyToComment. destruct user; cbn [fst snd isThrown].
    + left. split; [reflexivity|]. rewrite toasts_afterJobsChange.
      eexists. split; [reflexivity | discriminate].
    + right. repeat split. eexists. reflexivity.
  - unfold throws, addReplyToComment. now destruct user.
  - left. unfold throws, toggleJobLike. destruct (currentUser s); cbn [fst snd isThrown].
    + split; [reflexivity|]. rewrite toasts_afterJobsChange.
      eexists. split; [reflexivity | discriminate].
    + split; [reflexivity|]. eexists. split; [reflexivity|]. intros _. split; reflexivity.
  - unfold throws, toggleJobLike. now destruct (currentUser s).
  - left. destruct (currentUser s) as [u|] eqn:Hu.
    + split; [unfold throws, toggleSaveJob; now rewrite Hu|].
      rewrite (toasts_toggleSaveJob_user _ _ _ Hu).
      eexists. split; [reflexivity | discriminate].
    + unfold throws, toggleSaveJob. rewrite Hu. cbn [fst snd isThrown].
      split; [reflexivity|].
      eexists. split; [reflexivity|]. intros _. split; reflexivity.
  - unfold throws, toggleSaveJob. now destruct (currentUser s).
  - reflexivity.
  - split; [reflexivity | apply toasts_fetchJobs].
  - reflexivity.
  - split; [reflexivity|]. unfold authChange, updateSavedJobs. simpl. now destruct user.
Qed.

Lemma operations_notify_once_witness :
  List.length (toasts (step (DeleteJob "3") Examples.seeded))
  = S (List.length (toasts Examples.seeded))
  /\ (snd (addCommentToJob "1" "Hola" None Examples.noon Examples.seeded) = Thrown
      /\ toasts (step (AddCommentToJob "1" "Hola" None Examples.noon) Examples.seeded)
         = toasts Examples.seeded)
  /\ toasts (step (AuthChange None) Examples.seeded) = toasts Examples.seeded.
Proof.
  split; [|split].
  - destruct (proj1 (operations_notify_once (DeleteJob "3") Examples.seeded) eq_refl)
      as [(_ & t & Ht & _) | (Hthrows & _)].
    + rewrite Ht, length_app, Nat.add_comm. reflexivity.
    + discriminate Hthrows.
  - split; [reflexivity|].
    destruct (proj1 (operations_notify_once
                       (AddCommentToJob "1" "Hola" None Examples.noon) Examples.seeded)
                    eq_refl)
      as [(Hthrows & _) | (_ & Hsame & _)].
    + discriminate Hthrows.
    + exact Hsame.
  - exact (proj2 (proj2 (proj2 (operations_notify_once (AuthChange None) Examples.seeded))
                        eq_refl)).
Defined.

(** X16: for an authenticated user and a job id that getJob finds, the
    notification of toggleJobLike names what was done: its title is 'Like
    añadido' exactly when the user has liked the job afterwards and 'Like
    eliminado' exactly when the user has not; likewise 'Propuesta
    guardada' and 'Propuesta eliminada' for toggleSaveJob. *)
Theorem toggle_notification_names_the_action
    (jobId : string) (s : Store) (u : User.UserType) (job : Job.JobType) :
  currentUser s = Some u ->
  fst (getJob jobId s) = Some job ->
  (exists t,
      toasts (fst (toggleJobLike jobId s)) = toasts s ++ [t]
      /\ variant t = default
      /\ toast_title t
         = (if isJobLikedByCurrentUser jobId (fst (toggleJobLike jobId s))
            then "Like añadido" else "Like eliminado"))
  /\ (exists t,
        toasts (fst (toggleSaveJob jobId s)) = toasts s ++ [t]
        /\ variant t = default
        /\ toast_title t
           = (if isJobSavedByCurrentUser jobId (fst (toggleSaveJob jobId s))
              then "Propuesta guardada" else "Propuesta eliminada")).
Proof.
  intros Hu Hfind.
  destruct (queries_flip jobId s u job Hu Hfind) as (Hliked & Hsaved).
  rewrite Hliked, Hsaved, (toasts_toggleSaveJob_user _ _ _ Hu).
  unfold toggleJobLike. rewrite Hu. cbn [fst].
  rewrite toasts_afterJobsChange. split.
  - eexists. split; [reflexivity|]. split; [reflexivity|]. simpl.
    now destruct (isJobLikedByCurrentUser jobId s).
  - eexists. split; [reflexivity|]. split; [reflexivity|]. simpl.
    now destruct (isJobSavedByCurrentUser jobId s).
Qed.

Lemma toggle_notification_names_the_action_witness :
  map toast_title (toasts (fst (toggleJobLike "2" Examples.seeded))) = ["Like añadido"]
  /\ exists t,
       toasts (fst (toggleJobLike "2" Examples.likedByBoth))
       = toasts Examples.likedByBoth ++ [t]
       /\ toast_title t = "Like eliminado".
Proof.
  split; [reflexivity|].
  destruct (proj1 (toggle_notification_names_the_action "2" Examples.likedByBoth
                     Examples.userU (nth 1 (jobs Examples.likedByBoth) Examples.noJob)
                     eq_refl eq_refl))
    as (t & Ht & _ & Htitle).
  exists t. split; [exact Ht|]. rewrite Htitle. reflexivity.
Defined.

(** X17: with an authenticated user and a job id that no job has, the
    operations still report success: toggleJobLike notifies 'Like añadido'
    and toggleSaveJob 'Propuesta guardada' although the user has neither
    liked nor saved anything afterwards, updateJob notifies 'Trabajo
    actualizado' and deleteJob 'Trabajo eliminado', and all four return
    normally; none reports that the job was not found. *)
Theorem unknown_id_is_reported_as_success (jobId : string) (s : Store) (u : User.UserType) :
  currentUser s = Some u ->
  (forall job, In job (jobs s) -> Job.id job <> jobId) ->
  (toggleJobLike jobId s
   = (afterJobsChange
        (toast (mkToast default "Like añadido" "Has dado like a esta propuesta")
               (setJobs (map (likeToggled (User.id u) jobId)) s)),
      Returned tt)
   /\ toasts (fst (toggleJobLike jobId s))
      = toasts s ++ [mkToast default "Like añadido" "Has dado like a esta propuesta"]
   /\ isJobLikedByCurrentUser jobId (fst (toggleJobLike jobId s)) = false)
  /\ (toasts (fst (toggleSaveJob jobId s))
      = toasts s ++ [mkToast default "Propuesta guardada" "Has guardado esta propuesta"]
      /\ snd (toggleSaveJob jobId s) = Returned tt
      /\ isJobSavedByCurrentUser jobId (fst (toggleSaveJob jobId s)) = false)
  /\ (forall updates,
         toasts (fst (updateJob jobId updates s))
         = toasts s ++ [mkToast default "Trabajo actualizado"
                                "El trabajo se ha actualizado correctamente"]
         /\ snd (updateJob jobId updates s) = Returned tt)
  /\ (toasts (fst (deleteJob jobId s))
      = toasts s ++ [mkToast default "Trabajo eliminado"
                             "El trabajo se ha eliminado correctamente"]
      /\ snd (deleteJob jobId s) = Returned tt).
Proof.
  intros Hu Habsent.
  pose proof (findJob_None jobId (jobs s) Habsent) as Hnone.
  assert (Hliked : isJobLikedByCurrentUser jobId s = false).
  { unfold isJobLikedByCurrentUser. now rewrite Hu, Hnone. }
  assert (Hsaved : isJobSavedByCurrentUser jobId s = false).
  { unfold isJobSavedByCurrentUser. now rewrite Hu, Hnone. }
  assert (HjobsL : jobs (fst (toggleJobLike jobId s)) = jobs s).
  { rewrite jobs_toggleJobLike, Hu. apply map_unchanged.
    intros job Hin. apply likeToggled_other. now apply Habsent. }
  assert (HjobsS : jobs (fst (toggleSaveJob jobId s)) = jobs s).
  { rewrite jobs_toggleSaveJob, Hu. apply map_unchanged.
    intros job Hin. apply saveToggled_other. now apply Habsent. }
  split; [|split; [|split]].
  - assert (Heq : toggleJobLike jobId s
                  = (afterJobsChange
                       (toast (mkToast default "Like añadido" "Has dado like a esta propuesta")
                              (setJobs (map (likeToggled (User.id u) jobId)) s)),
                     Returned tt)).
    { unfold toggleJobLike. now rewrite Hu, Hliked. }
    split; [exact Heq|]. split.
    + rewrite Heq. cbn [fst]. now rewrite toasts_afterJobsChange.
    + unfold isJobLikedByCurrentUser.
      now rewrite currentUser_toggleJobLike, Hu, HjobsL, Hnone.
  - rewrite (toasts_toggleSaveJob_user _ _ _ Hu), Hsaved. split; [reflexivity|]. split.
    + unfold toggleSaveJob. now rewrite Hu.
    + unfold isJobSavedByCurrentUser.
      now rewrite currentUser_toggleSaveJob, Hu, HjobsS, Hnone.
  - intros updates. unfold updateJob. cbn [fst snd].
    now rewrite toasts_afterJobsChange.
  - unfold deleteJob. cbn [fst snd]. now rewrite toasts_afterJobsChange.
Qed.

Lemma unknown_id_is_reported_as_success_witness :
  map toast_title (toasts (fst (toggleJobLike "9" Examples.seeded))) = ["Like añadido"]
  /\ isJobLikedByCurrentUser "9" (fst (toggleJobLike "9" Examples.seeded)) = false.
Proof.
  assert (Hjob : forall job, In job (jobs Examples.seeded) -> Job.id job <> "9").
  { intros job Hin. simpl in Hin.
    destruct Hin as [<-|[<-|[<-|[<-|[<-|[]]]]]]; discriminate. }
  destruct (unknown_id_is_reported_as_success "9" Examples.seeded Examples.userU
              eq_refl Hjob)
    as ((_ & Htoasts & Hliked) & _).
  split; [rewrite Htoasts; reflexivity | exact Hliked].
Defined.

(** ** Toggling a save twice *)

Lemma with_savedBy_same (job : Job.JobType) :
  Job.with_savedBy job (Job.savedBy job) = job.
Proof. now destruct job. Qed.

Lemma saveToggled_twice (uid jobId : string) (job : Job.JobType) :
  Job.id job = jobId ->
  saveToggled uid jobId (saveToggled uid jobId job) =
  if includes (Job.savedBy job) uid
  then Job.with_savedBy job (without (Job.savedBy job) uid ++ [uid])
  else Job.with_savedBy job (without (Job.savedBy job ++ [uid]) uid).
Proof.
  intros Hid. unfold saveToggled at 2. rewrite Hid, String.eqb_refl.
  destruct (includes (Job.savedBy job) uid) eqn:Hinc; unfold saveToggled; simpl;
    rewrite Hid, String.eqb_refl.
  - now rewrite includes_without.
  - now rewrite includes_snoc.
Qed.

(** X18: for an authenticated user, two toggleSaveJob calls in a row on
    the same job id bring every job with that id back to the same set of
    savers and change no other field: the job is identical to the
    original when the user had not saved it, otherwise the user's id has
    moved to the end of savedBy. *)
Theorem toggleSaveJob_twice
    (jobId : string) (s : Store) (u : User.UserType) (i : nat) (job : Job.JobType) :
  currentUser s = Some u ->
  nth_error (jobs s) i = Some job ->
  Job.id job = jobId ->
  exists job',
    nth_error (jobs (fst (toggleSaveJob jobId (fst (toggleSaveJob jobId s))))) i = Some job'
    /\ Job.savedBy job' =
       (if includes (Job.savedBy job) (User.id u)
        then without (Job.savedBy job) (User.id u) ++ [User.id u]
        else Job.savedBy job)
    /\ (forall x, In x (Job.savedBy job') <-> In x (Job.savedBy job))
    /\ SameExceptSavedBy job' job
    /\ (includes (Job.savedBy job) (User.id u) = false -> job' = job).
Proof.
  intros Hu Hnth Hid.
  rewrite jobs_toggleSaveJob, currentUser_toggleSaveJob, Hu, jobs_toggleSaveJob, Hu.
  rewrite map_map, nth_error_map, Hnth. cbn [option_map].
  eexists. split; [reflexivity|].
  rewrite (saveToggled_twice _ _ _ Hid).
  destruct (includes (Job.savedBy job) (User.id u)) eqn:Hinc.
  - apply includes_true_iff in Hinc. cbn [Job.savedBy Job.with_savedBy].
    split; [reflexivity|]. split; [|split; [|discriminate]].
    + intros x. split.
      * intros Hx. apply in_app_or in Hx as [Hx|[<-|[]]]; [|assumption].
        now apply in_without in Hx.
      * intros Hx. apply in_or_app.
        destruct (String.eqb_spec x (User.id u)) as [->|Hne];
          [right; now left | left; now apply in_without].
    + unfold SameExceptSavedBy. simpl. repeat split.
  - apply includes_false_iff in Hinc.
    rewrite (without_snoc _ _ Hinc), with_savedBy_same.
    split; [reflexivity|]. split; [tauto|]. split; [|reflexivity].
    unfold SameExceptSavedBy. repeat split.
Qed.

Lemma toggleSaveJob_twice_witness :
  exists job',
    nth_error (jobs (fst (toggleSaveJob "4" (fst (toggleSaveJob "4" Examples.seeded))))) 3
    = Some job'
    /\ job' = nth 3 (getMockJobs Examples.noon) Examples.noJob.
Proof.
  destruct (toggleSaveJob_twice "4" Examples.seeded Examples.userU 3%nat
              (nth 3 (getMockJobs Examples.noon) Examples.noJob) eq_refl eq_refl eq_refl)
    as (job' & Hnth & _ & _ & _ & Hsame).
  exists job'. split; [exact Hnth|]. apply Hsame. reflexivity.
Defined.

(** ** The like counter stays non-negative *)

(** X19: toggleJobLike by an authenticated user never makes a counter
    negative: a job whose likesCount was at least 0 keeps it at least 0,
    and after an unlike the counter is at least 0 whatever it was
    before. *)
Theorem likesCount_stays_non_negative
    (jobId : string) (s : Store) (u : User.UserType) (i : nat) (job : Job.JobType) :
  currentUser s = Some u ->
  nth_error (jobs s) i = Some job ->
  exists job',
    nth_error (jobs (fst (toggleJobLike jobId s))) i = Some job'
    /\ (0 <= Job.likesCount job -> 0 <= Job.likesCount job')
    /\ (Job.id job = jobId -> includes (Job.likedBy job) (User.id u) = true ->
        0 <= Job.likesCount job').
Proof.
  intros Hu Hnth. rewrite jobs_toggleJobLike, Hu, nth_error_map, Hnth.
  cbn [option_map]. eexists. split; [reflexivity|]. unfold likeToggled. split.
  - intros Hpos. destruct (String.eqb (Job.id job) jobId); [|assumption].
    destruct (includes (Job.likedBy job) (User.id u)); simpl; lia.
  - intros Hid Hinc. apply String.eqb_eq in Hid. rewrite Hid, Hinc. simpl. lia.
Qed.

Lemma likesCount_stays_non_negative_witness :
  exists job',
    nth_error (jobs (fst (toggleJobLike "2" Examples.counterBehind))) 1 = Some job'
    /\ 0 <= Job.likesCount job'.
Proof.
  destruct (likesCount_stays_non_negative "2" Examples.counterBehind Examples.userU 1%nat
              (nth 1 (jobs Examples.counterBehind) Examples.noJob) eq_refl eq_refl)
    as (job' & Hnth & _ & Hunlike).
  exists job'. split; [exact Hnth|]. apply Hunlike; reflexivity.
Defined.

(** ** How a status is shown *)

(** X20: the job card and the job detail page show a status alike: the
    same text and the same colour classes for each status; the three
    statuses get three different texts and three different colour
    classes, 'Abierto' for open, 'En progreso' for in-progress and
    'Completado' for completed. *)
Theorem status_is_shown_alike_and_distinctly :
  (forall status,
      JobCard.statusLabel status = JobDetail.statusLabel status
      /\ JobCard.statusClass status = JobDetail.statusClass status)
  /\ (forall a b, JobCard.statusLabel a = JobCard.statusLabel b -> a = b)
  /\ (forall a b, JobCard.statusClass a = JobCard.statusClass b -> a = b)
  /\ map JobCard.statusLabel [open; in_progress; completed]
     = ["Abierto"; "En progreso"; "Completado"].
Proof.
  split; [|split; [|split]].
  - intros []; split; reflexivity.
  - intros [] []; simpl; intros H; try reflexivity; discriminate H.
  - intros [] []; simpl; intros H; try reflexivity; discriminate H.
  - reflexivity.
Qed.

Lemma status_is_shown_alike_and_distinctly_witness :
  JobCard.statusLabel in_progress = "En progreso"
  /\ JobDetail.statusLabel in_progress = "En progreso".
Proof.
  destruct (proj1 status_is_shown_alike_and_distinctly in_progress) as (Hlabel & _).
  split; [reflexivity | rewrite <- Hlabel; reflexivity].
Defined.

(** ** Who may change a job *)

(** X21: the store does not check who is acting when a job is updated,
    deleted, created or commented: the job list after updateJob,
    deleteJob, addJob and addCommentToJob is the same whoever is the
    acting user, no user included, so a job is deleted or rewritten also
    for a user who does not own it.  Only the detail page guards the
    edit and delete buttons: isOwner holds exactly when a user is
    authenticated and the user's id is the job's userId. *)
Theorem store_does_not_check_ownership
    (jobId : string) (s : Store) (acting : option User.UserType) :
  (forall updates,
      jobs (fst (updateJob jobId updates (setCurrentUser acting s)))
      = jobs (fst (updateJob jobId updates s)))
  /\ jobs (fst (deleteJob jobId (setCurrentUser acting s)))
     = jobs (fst (deleteJob jobId s))
  /\ fst (getJob jobId (fst (deleteJob jobId (setCurrentUser acting s)))) = None
  /\ (forall newJob clk,
         jobs (fst (addJob newJob clk (setCurrentUser acting s)))
         = jobs (fst (addJob newJob clk s)))
  /\ (forall content author clk,
         jobs (fst (addCommentToJob jobId content author clk (setCurrentUser acting s)))
         = jobs (fst (addCommentToJob jobId content author clk s)))
  /\ (forall job,
         JobDetail.isOwner acting job = true
         <-> exists u, acting = Some u /\ User.id u = Job.userId job).
Proof.
  split; [|split; [|split; [|split; [|split]]]].
  - intros updates. now rewrite !jobs_updateJob.
  - now rewrite !jobs_deleteJob.
  - unfold getJob. cbn [fst]. rewrite jobs_deleteJob, findJob_filter_other.
    now rewrite String.eqb_refl.
  - intros newJob clk. now rewrite !jobs_addJob.
  - intros content [author|] clk; [|reflexivity]. now rewrite !jobs_addCommentToJob.
  - intros job. unfold JobDetail.isOwner. split.
    + destruct acting as [u|]; [|discriminate].
      intros Heq. apply String.eqb_eq in Heq. now exists u.
    + intros (u & -> & Hid). now apply String.eqb_eq.
Qed.

Lemma store_does_not_check_ownership_witness :
  JobDetail.isOwner (Some Examples.userV) (nth 1 (getMockJobs Examples.noon) Examples.noJob)
  = false
  /\ map Job.id (jobs (fst (deleteJob "2" (setCurrentUser (Some Examples.userV)
                                                         Examples.seeded))))
     = ["1"; "3"; "4"; "5"]
  /\ map Job.id (jobs (fst (deleteJob "2" (setCurrentUser None Examples.seeded))))
     = ["1"; "3"; "4"; "5"].
Proof.
  split; [reflexivity|]. split.
  - rewrite (proj1 (proj2 (store_does_not_check_ownership "2" Examples.seeded
                             (Some Examples.userV)))).
    reflexivity.
  - rewrite (proj1 (proj2 (store_does_not_check_ownership "2" Examples.seeded None))).
    reflexivity.
Defined.

Lemma fetchJobs_normalises_remote_jobs_witness :
  map (fun job => (Job.id job, Job.likedBy job, Job.likesCount job, Job.comments job))
      (jobs (fetchJobs (Remote.OkJobs [Examples.rawLikedTwice]) Examples.noon
                       Examples.seeded))
  = [("7", ["U"; "U"], 2, [])]
  /\ localStorage (fetchJobs (Remote.OkJobs [Examples.rawLikedTwice]) Examples.noon
                             Examples.seeded)
     = Some (Snapshot (jobs (fetchJobs (Remote.OkJobs [Examples.rawLikedTwice])
                                       Examples.noon Examples.seeded))).
Proof.
  split; [reflexivity|].
  destruct (fetchJobs_normalises_remote_jobs [Examples.rawLikedTwice] Examples.noon
              Examples.seeded)
    as (_ & _ & _ & _ & _ & Hcache).
  apply Hcache. discriminate.
Defined.
